(** * The metadata-driven data repository: [DataRepository] of src/database.py

    A shallow embedding of [DataRepository.get_data] and of the private
    methods it calls, followed by the properties of the synchronisation
    engine.

    Conventions of the embedding.
    - A point in time ([datetime], [pd.Timestamp]) is a number of
      microseconds since [datetime.min], without time zone; a [timedelta]
      is a number of microseconds.
    - The directory [DATA_DIR] and the remote dataset repository are finite
      maps from file names to file contents.  Local writes succeed; the
      network may be down, which makes every transfer raise.
    - A row's fields other than ['date'] are an opaque payload, written to
      CSV and read back as they are: the types [pd.read_csv] infers anew
      for them are not modelled.
    - [check_interval_days] is within the range of [timedelta] and a
      [last_checked] read from metadata carries no time zone, so that the
      comparison of line 48, which stands outside every [try], is defined.
    - A [pd.DataFrame] is the list of its rows; a row carries the value of
      its ['date'] column ([None] when the column is missing or the cell is
      [NaT]) and the rest of its fields.  A frame freshly read from CSV or
      handed over by a loader holds dates as text.
    - Python exceptions are the [Raise] outcome of a state-and-exception
      monad; [try]/[except] is [try_except]. *)

From stdpp Require Import gmap strings list.
From Stdlib Require Import ZArith Lia Sorted Permutation.

Local Open Scope Z_scope.

(** ** Time *)

Definition datetime_min : Z := 0.

Definition us_per_day : Z := 86400000000.

(** [timedelta(days=d)] *)
Definition timedelta_days (d : Z) : Z := d * us_per_day.

(** [t.replace(hour=0, minute=0, second=0, microsecond=0)] *)
Definition midnight (t : Z) : Z := t - t `mod` us_per_day.

(** The text of a date or of a timestamp, by what the parsers
    ([pd.to_datetime], [datetime.fromisoformat]) make of it. *)
Inductive DateText :=
  | DateOk (t : Z)
  | DateBad.

(** [t.strftime('%Y-%m-%d')] keeps the day only. *)
Definition strftime_ymd (t : Z) : DateText := DateOk (midnight t).

(** The outcome of running a piece of code: a value, or an exception. *)
Inductive Outcome (A : Type) :=
  | Ret (a : A)
  | Raise.
Arguments Ret {A} a.
Arguments Raise {A}.

Section Repository.

(** The fields of a record other than its date. *)
Context {V : Type}.

(** ** Data frames *)

Record RawRow := mkRawRow { raw_date : option DateText; raw_vals : V }.

Record Row := mkRow { date : option Z; vals : V }.

Definition DataFrame := list Row.

(** What [get_data] hands back to its caller. *)
Inductive PyValue :=
  | PyNone
  | PyDataFrame (df : DataFrame).

(** [df.empty] *)
Definition empty {A} (df : list A) : bool :=
  match df with [] => true | _ => false end.

(** [pd.to_datetime] on one cell: an empty cell becomes [NaT], text that is
    not a date raises. *)
Definition to_datetime_cell (c : option DateText) : option (option Z) :=
  match c with
  | None => Some None
  | Some (DateOk t) => Some (Some t)
  | Some DateBad => None
  end.

(** [df['date'] = pd.to_datetime(df['date'])], [None] when it raises. *)
Fixpoint to_datetime_col (raw : list RawRow) : option DataFrame :=
  match raw with
  | [] => Some []
  | r :: rest =>
      match to_datetime_cell (raw_date r), to_datetime_col rest with
      | Some d, Some df => Some (mkRow d (raw_vals r) :: df)
      | _, _ => None
      end
  end.

(** The rows [df.to_csv] writes: the dates as text, the payload as it
    is. *)
Definition to_csv (df : DataFrame) : list RawRow :=
  map (fun r => mkRawRow (DateOk <$> date r) (vals r)) df.

(** [df['date'].max()] and [df['date'].min()], which skip [NaT]; [None]
    stands for both Python's [None] (no ['date'] column) and [NaT]. *)
Definition opt_combine (f : Z -> Z -> Z) (a b : option Z) : option Z :=
  match a, b with
  | Some x, Some y => Some (f x y)
  | Some x, None => Some x
  | None, b => b
  end.

Definition date_max (df : DataFrame) : option Z :=
  foldr (fun r acc => opt_combine Z.max (date r) acc) None df.

Definition date_min (df : DataFrame) : option Z :=
  foldr (fun r acc => opt_combine Z.min (date r) acc) None df.

(** [drop_duplicates(subset=['date'], keep='last')]: a row stays when no
    later row has its date. *)
Definition same_date (r r' : Row) : bool := bool_decide (date r = date r').

Fixpoint drop_duplicates_last (df : DataFrame) : DataFrame :=
  match df with
  | [] => []
  | r :: rest =>
      if existsb (same_date r) rest
      then drop_duplicates_last rest
      else r :: drop_duplicates_last rest
  end.

(** [sort_values('date')]: ascending, [NaT] last. *)
Definition date_leb (a b : option Z) : bool :=
  match a, b with
  | Some x, Some y => x <=? y
  | _, None => true
  | None, Some _ => false
  end.

Fixpoint insert_sorted (r : Row) (df : DataFrame) : DataFrame :=
  match df with
  | [] => [r]
  | r' :: rest =>
      if date_leb (date r) (date r') then r :: df
      else r' :: insert_sorted r rest
  end.

Definition sort_values (df : DataFrame) : DataFrame :=
  foldr insert_sorted [] df.

(** [pd.concat([df_existing, df_new]).drop_duplicates(...).sort_values('date')] *)
Definition merge_frames (df_existing df_new : DataFrame) : DataFrame :=
  sort_values (drop_duplicates_last (df_existing ++ df_new)).

(** ** Files, the remote repository, the loader *)

Inductive File :=
  | FCsv (rows : list RawRow)       (* a CSV table *)
  | FMeta (last_checked : DateText) (* {"last_checked": "..."} *)
  | FJson                           (* JSON without a "last_checked" key *)
  | FGarbage.                       (* neither CSV nor JSON *)

Inductive LoaderResult :=
  | LoaderRaises
  | LoaderNone
  | LoaderFrame (rows : list RawRow).

(** [loader.fetch_data(start_date=..., **kwargs)] *)
Definition Loader : Type :=
  option DateText -> gmap string string -> LoaderResult.

Record World := mkWorld {
  files : gmap string File;      (* DATA_DIR *)
  hub : gmap string File;        (* data/ of the remote dataset repository *)
  hub_online : bool;
  clock : nat -> Z;              (* successive readings of datetime.now() *)
  ticks : nat;                   (* readings taken so far *)
  fetch_log : list (option DateText * gmap string string)
                                 (* loader calls, latest first *)
}.

Definition set_files (f : gmap string File → gmap string File) (w : World) : World :=
  mkWorld (f (files w)) (hub w) (hub_online w) (clock w) (ticks w) (fetch_log w).

Definition set_hub (f : gmap string File → gmap string File) (w : World) : World :=
  mkWorld (files w) (f (hub w)) (hub_online w) (clock w) (ticks w) (fetch_log w).

Definition tick (w : World) : World :=
  mkWorld (files w) (hub w) (hub_online w) (clock w) (S (ticks w)) (fetch_log w).

Definition log_fetch (c : option DateText * gmap string string) (w : World) : World :=
  mkWorld (files w) (hub w) (hub_online w) (clock w) (ticks w) (c :: fetch_log w).

(** ** The monad of state and exceptions *)

Definition M (A : Type) : Type := World -> Outcome A * World.

Definition ret {A} (a : A) : M A := fun w => (Ret a, w).

Definition raise {A} : M A := fun w => (Raise, w).

Definition bind {A B} (m : M A) (k : A -> M B) : M B :=
  fun w => match m w with
           | (Ret a, w') => k a w'
           | (Raise, w') => (Raise, w')
           end.

(** [try: m except Exception: h] *)
Definition try_except {A} (m : M A) (h : M A) : M A :=
  fun w => match m w with
           | (Ret a, w') => (Ret a, w')
           | (Raise, w') => h w'
           end.

Notation "'let*' x ':=' m 'in' k" := (bind m (fun x => k))
  (at level 10, x name, m at level 100, k at level 200).
Notation "m1 '>>' m2" := (bind m1 (fun _ => m2))
  (at level 100, m2 at level 200, right associativity).

(** ** Primitive operations *)

Definition datetime_now : M Z :=
  fun w => (Ret (clock w (ticks w)), tick w).

Definition path_exists (p : string) : M bool :=
  fun w => (Ret (match files w !! p with Some _ => true | None => false end), w).

Definition write_file (p : string) (f : File) : M unit :=
  fun w => (Ret tt, set_files <[p := f]> w).

(** [pd.read_csv(file_path)] *)
Definition read_csv (p : string) : M (list RawRow) :=
  fun w => match files w !! p with
           | Some (FCsv rows) => (Ret rows, w)
           | _ => (Raise, w)
           end.

(** [datetime.fromisoformat(json.load(f)['last_checked'])] *)
Definition read_last_checked (p : string) : M Z :=
  fun w => match files w !! p with
           | Some (FMeta (DateOk t)) => (Ret t, w)
           | _ => (Raise, w)
           end.

(** [self.api.upload_file(path_or_fileobj=p, path_in_repo="data/" + name)] *)
Definition upload_file (p name : string) : M unit :=
  fun w => match hub_online w, files w !! p with
           | true, Some f => (Ret tt, set_hub <[name := f]> w)
           | _, _ => (Raise, w)
           end.

(** [self.api.hf_hub_download(filename="data/" + name,
    local_dir=DATA_DIR.parent)] *)
Definition hf_hub_download (name : string) : M unit :=
  fun w => match hub_online w, hub w !! name with
           | true, Some f => (Ret tt, set_files <[name := f]> w)
           | _, _ => (Raise, w)
           end.

(** [loader.fetch_data(start_date=start, **kwargs)] *)
Definition fetch_data (loader : Loader) (start : option DateText)
    (kwargs : gmap string string) : M (option (list RawRow)) :=
  fun w => match loader start kwargs with
           | LoaderRaises => (Raise, log_fetch (start, kwargs) w)
           | LoaderNone => (Ret None, log_fetch (start, kwargs) w)
           | LoaderFrame rows => (Ret (Some rows), log_fetch (start, kwargs) w)
           end.

(** [pd.to_datetime(start_date).replace(tzinfo=None)] *)
Definition to_datetime (s : DateText) : M Z :=
  match s with
  | DateOk t => ret t
  | DateBad => raise
  end.

(** ** The private methods of [DataRepository] *)

Definition meta_name (filename : string) : string := filename +:+ ".meta.json".

Definition _ensure_date_format (raw : list RawRow) : M DataFrame :=
  match to_datetime_col raw with
  | Some df => ret df
  | None => raise
  end.

Definition _load_csv (file_path : string) : M DataFrame :=
  try_except
    (let* df := read_csv file_path in
     _ensure_date_format df)
    (ret []).

Definition _pull_from_hub (filename : string) : M bool :=
  try_except
    (hf_hub_download filename >> ret true)
    (ret false).

Definition _get_last_checked (meta_path : string) : M Z :=
  let* present := path_exists meta_path in
  if negb present then ret datetime_min
  else try_except (read_last_checked meta_path) (ret datetime_min).

Definition _update_meta (meta_path : string) : M unit :=
  let* now := datetime_now in
  write_file meta_path (FMeta (DateOk now)).

Definition _push_meta_only (filename meta_path : string) : M unit :=
  try_except (upload_file meta_path (meta_name filename)) (ret tt).

Definition _save_and_push (file_path : string) (df : DataFrame)
    (filename meta_path : string) : M unit :=
  try_except
    (write_file file_path (FCsv (to_csv df)) >>
     _update_meta meta_path >>
     try_except
       (upload_file file_path filename >>
        upload_file meta_path (meta_name filename))
       (ret tt))
    (ret tt).

Definition _fetch_and_save (filename : string) (loader : Loader)
    (meta_path : string) (start_date : option DateText)
    (kwargs : gmap string string) : M PyValue :=
  try_except
    (let* df := fetch_data loader start_date kwargs in
     match df with
     | None => ret PyNone
     | Some raw =>
         if negb (empty raw) then
           let* df := _ensure_date_format raw in
           _save_and_push filename df filename meta_path >>
           ret (PyDataFrame df)
         else ret (PyDataFrame [])
     end)
    (ret (PyDataFrame [])).

(** ** [get_data] *)

(** Line 64: [current_min_date and
    current_min_date > req_start + timedelta(days=5)] *)
Definition older_than_cache (req_start : Z) (current_min_date : option Z) : bool :=
  match current_min_date with
  | Some m => req_start + timedelta_days 5 <? m
  | None => false
  end.

(** Lines 57-104, the body of the [try] block. *)
Definition refresh (filename : string) (loader : Loader)
    (start_date : option DateText)
    (kwargs : gmap string string) (df_existing : DataFrame) : M PyValue :=
  let meta_path := meta_name filename in
  let current_max_date := date_max df_existing in
  let* now := datetime_now in
  let today := midnight now in
  let* backfill :=
    match start_date with
    | Some s =>
        let current_min_date := date_min df_existing in
        let* req_start := to_datetime s in
        ret (older_than_cache req_start current_min_date)
    | None => ret false
    end in
  if backfill : bool then
    _fetch_and_save filename loader meta_path start_date kwargs
  else
    match current_max_date with
    | Some mx =>
        if mx <? today - timedelta_days 1 then
          let next_day := mx + timedelta_days 1 in
          let* now' := datetime_now in
          if now' <? next_day then
            _update_meta meta_path >> ret (PyDataFrame df_existing)
          else
            let kwargs_copy := delete "start_date"%string kwargs in
            let* df_new := fetch_data loader (Some (strftime_ymd next_day)) kwargs_copy in
            match df_new with
            | None => raise       (* None has no attribute 'empty' *)
            | Some raw =>
                if negb (empty raw) then
                  let* df_new := _ensure_date_format raw in
                  let df_combined := merge_frames df_existing df_new in
                  _save_and_push filename df_combined filename meta_path >>
                  ret (PyDataFrame df_combined)
                else
                  _update_meta meta_path >>
                  _push_meta_only filename meta_path >>
                  ret (PyDataFrame df_existing)
            end
        else
          _update_meta meta_path >> ret (PyDataFrame df_existing)
    | None =>
        _update_meta meta_path >> ret (PyDataFrame df_existing)
    end.

(** Lines 38-108, from the load of the local file on.  The comparison of
    line 48 is taken on an interval and a [last_checked] for which it is
    defined. *)
Definition get_cached (filename : string) (loader : Loader)
    (check_interval : Z) (start_date : option DateText)
    (kwargs : gmap string string) : M PyValue :=
  let meta_path := meta_name filename in
  let* df_existing := _load_csv filename in
  if empty df_existing then
    _fetch_and_save filename loader meta_path start_date kwargs
  else
    let* last_checked := _get_last_checked meta_path in
    let* now := datetime_now in
    if now - last_checked <? check_interval then
      ret (PyDataFrame df_existing)
    else
      try_except
        (refresh filename loader start_date kwargs df_existing)
        (ret (PyDataFrame df_existing)).

(** [check_interval] is [timedelta(days=check_interval_days)]; [start_date]
    is [None] when the argument is [None] or the empty string. *)
Definition get_data (filename : string) (loader : Loader)
    (check_interval : Z) (start_date : option DateText)
    (kwargs : gmap string string) : M PyValue :=
  let meta_path := meta_name filename in
  let* present := path_exists filename in
  if negb present then
    let* pulled := _pull_from_hub filename in
    if pulled : bool then
      _pull_from_hub meta_path >>
      get_cached filename loader check_interval start_date kwargs
    else
      _fetch_and_save filename loader meta_path start_date kwargs
  else
    get_cached filename loader check_interval start_date kwargs.

(** ** Notions the statements below are written with *)

(** The row a reader finds under date [d]: the last one of the table that
    carries it. *)
Fixpoint last_with_date (d : option Z) (df : DataFrame) : option Row :=
  match df with
  | [] => None
  | r :: rest =>
      match last_with_date d rest with
      | Some r' => Some r'
      | None => if bool_decide (date r = d) then Some r else None
      end
  end.

(** Ascending by date, [NaT] last: every row is at or before every later
    one. *)
Definition date_le (r r' : Row) : Prop := date_leb (date r) (date r') = true.

Definition ascending (df : DataFrame) : Prop := StronglySorted date_le df.

(** The dataset invariant of the data model. *)
Definition well_formed (df : DataFrame) : Prop :=
  NoDup (date <$> df) ∧ ascending df.

(** The table [_load_csv] yields. *)
Definition cached_frame (fs : gmap string File) (p : string) : DataFrame :=
  match fs !! p with
  | Some (FCsv raw) => default [] (to_datetime_col raw)
  | _ => []
  end.

(** The timestamp [_get_last_checked] yields. *)
Definition last_checked_of (fs : gmap string File) (p : string) : Z :=
  match fs !! p with
  | Some (FMeta (DateOk t)) => t
  | _ => datetime_min
  end.

(** The world after a pull of [name] from the remote repository. *)
Definition pulled (name : string) (w : World) : World :=
  match hub_online w, hub w !! name with
  | true, Some f => set_files <[name := f]> w
  | _, _ => w
  end.

(** Whether such a pull succeeds. *)
Definition can_pull (name : string) (w : World) : bool :=
  match hub_online w, hub w !! name with
  | true, Some f => true
  | _, _ => false
  end.

(** The world after [_save_and_push]: both files written, then both
    published when the network is up. *)
Definition saved (filename : string) (df : DataFrame) (w : World) : World :=
  let csv := FCsv (to_csv df) in
  let meta := FMeta (DateOk (clock w (ticks w))) in
  let w' := set_files (λ fs, <[meta_name filename := meta]> (<[filename := csv]> fs))
              (tick w) in
  if hub_online w
  then set_hub (λ h, <[meta_name filename := meta]> (<[filename := csv]> h)) w'
  else w'.

(** The world after [_push_meta_only]. *)
Definition meta_pushed (filename : string) (w : World) : World :=
  match hub_online w, files w !! meta_name filename with
  | true, Some f => set_hub <[meta_name filename := f]> w
  | _, _ => w
  end.

(** The world after [_update_meta]. *)
Definition touched (filename : string) (w : World) : World :=
  set_files <[meta_name filename := FMeta (DateOk (clock w (ticks w)))]> (tick w).

(** Lines 61-66: [Some true] when a backfill is due, [None] when the
    requested start does not parse. *)
Definition backfill_due (sd : option DateText) (df : DataFrame) : option bool :=
  match sd with
  | None => Some false
  | Some (DateOk t) => Some (older_than_cache t (date_min df))
  | Some DateBad => None
  end.

(** The datasets a caller can get at: the local one and the archived one. *)
Definition store_ok (filename : string) (w : World) : Prop :=
  well_formed (cached_frame (files w) filename) ∧
  well_formed (cached_frame (hub w) filename).

(** A loader that delivers only tables with unique, ascending dates. *)
Definition loader_ok (loader : Loader) : Prop :=
  ∀ s k raw df,
    loader s k = LoaderFrame raw -> to_datetime_col raw = Some df ->
    well_formed df.

(** A returned table has unique, ascending dates. *)
Definition value_ok (o : Outcome PyValue) : Prop :=
  match o with
  | Ret (PyDataFrame df) => well_formed df
  | _ => True
  end.

(** Two directories that differ at most in the metadata file of
    [filename], and there only in a way [_get_last_checked] does not see. *)
Definition fs_agree (filename : string) (fs fs0 : gmap string File) : Prop :=
  (∀ p, p ≠ meta_name filename -> fs !! p = fs0 !! p) ∧
  last_checked_of fs (meta_name filename) = last_checked_of fs0 (meta_name filename).

(** Two worlds that are the same but for such a difference. *)
Definition agree (filename : string) (w w0 : World) : Prop :=
  hub w = hub w0 ∧ hub_online w = hub_online w0 ∧ clock w = clock w0 ∧
  ticks w = ticks w0 ∧ fetch_log w = fetch_log w0 ∧
  fs_agree filename (files w) (files w0).

End Repository.

(** * Further notions *)

Section Frames.

Context {V : Type}.

(** What a call on [filename] may change: nothing but the two files of
    [filename], locally and in the archive, and nothing in the archive when
    the network is down. *)
Definition frame (filename : string) (w w' : @World V) : Prop :=
  (∀ p, p ≠ filename -> p ≠ meta_name filename ->
        files w' !! p = files w !! p ∧ hub w' !! p = hub w !! p) ∧
  (hub_online w = false -> hub w' = hub w) ∧
  hub_online w' = hub_online w ∧
  clock w' = clock w.

(** At most one more loader call in [w'] than in [w]. *)
Definition one_fetch_at_most (w w' : @World V) : Prop :=
  fetch_log w' = fetch_log w ∨ ∃ c, fetch_log w' = c :: fetch_log w.

End Frames.

(** * The loaders and the callers of the repository *)

Section Loaders.

Context {V : Type}.

(** ** [StockPriceLoader.fetch_data], src/loaders/stock_loader.py

    [yf] stands for the body of the [try] block around [yf.download]: the
    rows it yields, indexed by their [Date], or [None] when anything in it
    raises.  It is handed the ticker, [start_date] and [end_date]. *)
Definition stock_fetch_data
    (yf : string -> option DateText -> option string -> option (list (Z * V)))
    : @Loader V :=
  λ start_date kwargs,
    match kwargs !! "ticker"%string with
    | None | Some ""%string => LoaderFrame []
    | Some ticker =>
        match yf ticker start_date (kwargs !! "end_date"%string) with
        | None => LoaderFrame []
        | Some rows =>
            if empty rows then LoaderFrame []
            else LoaderFrame
                   (map (λ x, mkRawRow (Some (strftime_ymd (fst x))) (snd x)) rows)
        end
    end.

(** ** [OECD_CSV_Loader.fetch_data], src/loaders/macro_loader.py *)

(** [pd.Timestamp("2021-01-01")], [pd.Timestamp("2020-12-31")] and the
    default start ["2010-01-01"], as days since [datetime.min]. *)
Definition split_date : Z := timedelta_days 737790.

Definition fred_last_day : Z := timedelta_days 737789.

Definition default_start : DateText := DateOk (timedelta_days 733772).

(** The mask [(date >= start_date) & (date <= end_date)]; a comparison
    with [NaT] is false. *)
Definition in_range (start_dt end_dt : Z) (r : @Row V) : bool :=
  match date r with
  | Some t => (start_dt <=? t) && (t <=? end_dt)
  | None => false
  end.

(** [fred] and [estat] stand for [_fetch_from_fred] and
    [_fetch_from_estat], called with the day their string arguments denote;
    [now] is the reading of [pd.Timestamp.now()].  [None] when a date does
    not parse and [pd.to_datetime] raises. *)
Definition oecd_fetch_data (now : Z) (fred estat : Z -> Z -> @DataFrame V)
    (start_date end_date : option DateText) : option (@DataFrame V) :=
  let start_date := match start_date with Some s => s | None => default_start end in
  let end_date := match end_date with Some e => e | None => strftime_ymd now end in
  match start_date, end_date with
  | DateOk start_dt, DateOk end_dt =>
      let df_fred :=
        if start_dt <? split_date then
          let fred_end := Z.min end_dt fred_last_day in
          if start_dt <=? fred_end
          then fred (midnight start_dt) (midnight fred_end)
          else []
        else [] in
      let df_estat :=
        if split_date <=? end_dt then
          let estat_start := Z.max start_dt split_date in
          if estat_start <=? end_dt
          then estat (midnight estat_start) (midnight end_dt)
          else []
        else [] in
      if negb (empty df_fred) && negb (empty df_estat) then
        Some (List.filter (in_range start_dt end_dt)
                (sort_values (drop_duplicates_last (df_fred ++ df_estat))))
      else if negb (empty df_fred) then
        Some (List.filter (in_range start_dt end_dt)
                (sort_values (drop_duplicates_last df_fred)))
      else if negb (empty df_estat) then
        Some (List.filter (in_range start_dt end_dt)
                (sort_values (drop_duplicates_last df_estat)))
      else Some []
  | _, _ => None
  end.

(** The loader as [get_data] calls it; [parse] is [pd.to_datetime] on the
    text of an [end_date] parameter. *)
Definition oecd_loader (now : Z) (fred estat : Z -> Z -> @DataFrame V)
    (parse : string -> DateText) : @Loader V :=
  λ start_date kwargs,
    let end_date :=
      match kwargs !! "end_date"%string with
      | None | Some ""%string => None
      | Some e => Some (parse e)
      end in
    match oecd_fetch_data now fred estat start_date end_date with
    | Some df => LoaderFrame (to_csv df)
    | None => LoaderRaises
    end.

End Loaders.

(** ** [TickerManager], src/utils/ticker_manager.py *)

(** A row of all_tickers.csv. *)
Record TickerRow := mkTicker {
  Code : string; Name : string; Market : string; Country : string }.

Definition tickers_file : string := "all_tickers.csv".

(** Lines 35-40. *)
Definition full_ticker (t : TickerRow) : string :=
  if String.eqb (Country t) "KR" then
    if String.eqb (Market t) "KOSDAQ" then Code t +:+ ".KQ"
    else Code t +:+ ".KS"
  else Code t.

(** Lines 43-45. *)
Definition display_name (t : TickerRow) : string :=
  (if String.eqb (Country t) "KR" then "🇰🇷" else "🇺🇸")
  +:+ " " +:+ Name t +:+ " (" +:+ Code t +:+ ")".

(** The loop of lines 32-47: a later row overwrites an earlier one with
    the same display name. *)
Definition ticker_map_of (df : @DataFrame TickerRow) : gmap string string :=
  foldl (λ m r, <[display_name (vals r) := full_ticker (vals r)]> m) ∅ df.

(** The body of [get_ticker_map], without the memoisation of
    [st.cache_data]; [df.empty] raises on [None].  [loader] is the value
    of the field [self.loader]. *)
Definition get_ticker_map (loader : @Loader TickerRow)
    : @M TickerRow (gmap string string) :=
  bind (get_data tickers_file loader (timedelta_days 30) None ∅)
    (λ df, match df with
           | PyNone => raise
           | PyDataFrame rows =>
               if empty rows then ret ∅ else ret (ticker_map_of rows)
           end).

(** ** [TickerListLoader], src/loaders/ticker_loader.py *)

(** [fdr.StockListing]: the listing of the Korean exchange (Code, Name,
    Market) and of an American market (Symbol, Name); [None] when the call
    raises or lacks the columns selected on lines 17 and 26. *)
Record FinanceDataReader := mkFdr {
  listing_krx : option (list (string * string * string));
  listing_us : string -> option (list (string * string)) }.

(** [drop_duplicates(subset=['Code'], keep='first')]. *)
Fixpoint drop_duplicates_code (rows : list TickerRow) : list TickerRow :=
  match rows with
  | [] => []
  | t :: rest => t :: filter (λ x, Code x ≠ Code t) (drop_duplicates_code rest)
  end.

(** [TickerListLoader.fetch_data]: a failure of the Korean listing reaches
    the outer [except] and gives an empty table, a failure of an American
    market skips that market; the table has no date column. *)
Definition ticker_list_fetch_data (fdr : FinanceDataReader)
    : @Loader TickerRow :=
  λ _ _,
    match listing_krx fdr with
    | None => LoaderFrame []
    | Some krx =>
        let df_krx := map (λ x, mkTicker x.1.1 x.1.2 x.2 "KR") krx in
        let df_us :=
          flat_map (λ market,
                      match listing_us fdr market with
                      | Some l => map (λ x, mkTicker x.1 x.2 market "US") l
                      | None => []
                      end)
            ["NASDAQ"; "NYSE"; "AMEX"]%string in
        LoaderFrame
          (map (mkRawRow None) (drop_duplicates_code (df_krx ++ df_us)))
    end.

(** [get_ticker_map] of a [TickerManager] as [__init__] builds it, with
    [self.loader = TickerListLoader()]. *)
Definition ticker_manager_map (fdr : FinanceDataReader)
    : @M TickerRow (gmap string string) :=
  get_ticker_map (ticker_list_fetch_data fdr).

(** [force_update]: the file is removed when it is there. *)
Definition force_update : @M TickerRow unit :=
  bind (path_exists tickers_file)
    (λ present, if present : bool
                then λ w, (Ret tt, set_files (delete tickers_file) w)
                else ret tt).

(** The row listed last under display name [k]. *)
Fixpoint last_listed (k : string) (df : @DataFrame TickerRow) : option TickerRow :=
  match df with
  | [] => None
  | r :: rest =>
      match last_listed k rest with
      | Some t => Some t
      | None => if String.eqb (display_name (vals r)) k then Some (vals r) else None
      end
  end.

(** * Scenarios *)

(** Midnight of day [n], counted from [datetime.min]. *)
Definition day (n : Z) : Z := timedelta_days n.

Definition hour : Z := 3600000000.

Definition minute : Z := 60000000.

(** A wall clock that reads 10:00 on day 100, and a second more at each
    further reading. *)
Definition clock_at_10 (n : nat) : Z :=
  day 100 + 10 * hour + Z.of_nat n * 1000000.

Definition raw (d v : Z) : @RawRow Z := mkRawRow (Some (DateOk (day d))) v.

Definition row (d v : Z) : @Row Z := mkRow (Some (day d)) v.

Definition fx : string := "forex_usdkrw.csv".

Definition kw : gmap string string := {[ "ticker"%string := "KRW=X"%string ]}.

(** A cache that holds days 90 to 92. *)
Definition cached_csv : list (@RawRow Z) := [raw 90 1; raw 91 2; raw 92 3].

Definition cached_table : @DataFrame Z := [row 90 1; row 91 2; row 92 3].

(** A cache with the given rows and metadata file, an empty archive, the
    network up. *)
Definition world_of (csv : list (@RawRow Z)) (meta : @File Z) : @World Z :=
  mkWorld (<[meta_name fx := meta]> (<[fx := FCsv csv]> ∅))
          ∅ true clock_at_10 0 [].

(** Checked ten minutes ago, and checked two days ago. *)
Definition lc_fresh : Z := day 100 + 10 * hour - 10 * minute.

Definition lc_stale : Z := day 98 + 10 * hour.

Definition w_fresh : @World Z := world_of cached_csv (FMeta (DateOk lc_fresh)).

Definition w_stale : @World Z := world_of cached_csv (FMeta (DateOk lc_stale)).

(** Checked two days ago, and holding data through yesterday. *)
Definition w_yesterday : @World Z :=
  world_of [raw 98 1; raw 99 2] (FMeta (DateOk lc_stale)).

(** Checked at some time, by a metadata file that is not JSON. *)
Definition w_garbled : @World Z := world_of cached_csv FGarbage.

(** Nothing on disk; the archive holds the dataset, with or without its
    metadata. *)
Definition w_archived (meta : option (@File Z)) : @World Z :=
  mkWorld ∅
    (match meta with
     | Some m => <[meta_name fx := m]> (<[fx := FCsv cached_csv]> ∅)
     | None => <[fx := FCsv cached_csv]> ∅
     end)
    true clock_at_10 0 [].

(** The dataset is gone from the disk and its metadata, checked ten
    minutes ago, is still there; the archive holds the dataset without
    metadata. *)
Definition w_leftover : @World Z :=
  mkWorld (<[meta_name fx := FMeta (DateOk lc_fresh)]> ∅)
          (<[fx := FCsv cached_csv]> ∅)
          true clock_at_10 0 [].

(** Nothing on disk, and no archive to recover from. *)
Definition w_absent : @World Z := mkWorld ∅ ∅ false clock_at_10 0 [].

(** Loaders: one with news (a revised day 92 and a new day 93), one with
    nothing to report, one that returns [None], one that fails. *)
Definition loader_news : @Loader Z := λ _ _, LoaderFrame [raw 92 30; raw 93 4].

Definition loader_empty : @Loader Z := λ _ _, LoaderFrame [].

Definition loader_none : @Loader Z := λ _ _, LoaderNone.

Definition loader_fails : @Loader Z := λ _ _, LoaderRaises.

(** A loader whose rows come out of order and repeat a date. *)
Definition loader_unsorted : @Loader Z :=
  λ _ _, LoaderFrame [raw 95 1; raw 94 2; raw 95 3].

(** A requested start forty days before the cache begins. *)
Definition early_start : option DateText := Some (DateOk (day 50)).

(** A second dataset beside the first, both cached. *)
Definition dxy : string := "index_dxy.csv".

Definition w_two : @World Z :=
  set_files <[dxy := FCsv [raw 80 7]]> w_stale.

(** The data file is there but is not a table. *)
Definition w_corrupt : @World Z :=
  mkWorld (<[fx := FGarbage]> ∅) ∅ true clock_at_10 0 [].

(** What yfinance answers in the scenarios: one row, stamped 05:00 on day
    93. *)
Definition yf_demo : string -> option DateText -> option string -> option (list (Z * Z)) :=
  λ _ _ _, Some [(day 93 + 5 * hour, 4)].

(** What FRED and e-Stat answer in the scenarios: rows out of order, a date
    twice, a date missing; and the time of the call, 10:00 on day 738000. *)
Definition fred_demo : Z -> Z -> @DataFrame Z :=
  λ _ _, [row 737000 2; row 736000 1; row 737000 3].

Definition estat_demo : Z -> Z -> @DataFrame Z :=
  λ _ _, [row 737800 5; mkRow None 7].

Definition oecd_now : Z := day 738000 + 10 * hour.

(** A FRED that differs from [fred_demo] on periods ending after
    2020-12-31, and an e-Stat that differs on periods starting before
    2021-01-01. *)
Definition fred_other : Z -> Z -> @DataFrame Z :=
  λ a b, if b <=? fred_last_day then fred_demo a b else [row 1 1].

Definition estat_other : Z -> Z -> @DataFrame Z :=
  λ a b, if split_date <=? a then estat_demo a b else [row 2 2].

(** A ticker list, cached ninety days ago and archived. *)
Definition samsung : TickerRow :=
  mkTicker "005930" "Samsung Electronics" "KOSPI" "KR".

Definition ecopro : TickerRow := mkTicker "247540" "Ecopro BM" "KOSDAQ" "KR".

Definition apple : TickerRow := mkTicker "AAPL" "Apple Inc." "NASDAQ" "US".

Definition ticker_csv : list (@RawRow TickerRow) :=
  [mkRawRow None samsung; mkRawRow None ecopro; mkRawRow None apple].

Definition ticker_table : @DataFrame TickerRow :=
  [mkRow None samsung; mkRow None ecopro; mkRow None apple].

Definition w_tickers : @World TickerRow :=
  mkWorld (<[meta_name tickers_file := FMeta (DateOk (day 10))]>
             (<[tickers_file := FCsv ticker_csv]> ∅))
          (<[tickers_file := FCsv ticker_csv]> ∅)
          true clock_at_10 0 [].

(** A loader with a newer list. *)
Definition loader_tickers : @Loader TickerRow :=
  λ _ _, LoaderFrame [mkRawRow None apple].

(** Listings in which the code 000660 appears in Korea and on the NASDAQ,
    and the AMEX cannot be reached. *)
Definition fdr_demo : FinanceDataReader :=
  mkFdr (Some [("005930", "Samsung", "KOSPI"); ("000660", "Hynix", "KOSPI")])
        (λ market,
           if String.eqb market "NASDAQ"
           then Some [("AAPL", "Apple"); ("000660", "Other")]
           else if String.eqb market "NYSE" then Some [("IBM", "IBM")]
           else None)%string.

(** * Properties *)

Section Properties.

Context {V : Type}.

Implicit Types (w : @World V) (df dfn : @DataFrame V) (loader : @Loader V).
Implicit Types (fs : gmap string (@File V)) (f : @File V).

(** ** The merge of cached and fetched rows *)

Lemma date_leb_total a b : date_leb a b = false -> date_leb b a = true.
Proof.
  destruct a as [x|], b as [y|]; simpl; try done.
  rewrite Z.leb_gt, Z.leb_le. lia.
Qed.

Lemma date_leb_trans a b c :
  date_leb a b = true -> date_leb b c = true -> date_leb a c = true.
Proof.
  destruct a as [x|], b as [y|], c as [z|]; simpl; try done.
  rewrite !Z.leb_le. lia.
Qed.

Lemma insert_sorted_perm r df : insert_sorted r df ≡ₚ r :: df.
Proof.
  induction df as [|r' df IH]; simpl; [done|].
  destruct (date_leb (date r) (date r')); [done|].
  rewrite IH. apply Permutation_swap.
Qed.

Lemma sort_values_perm df : sort_values df ≡ₚ df.
Proof.
  induction df as [|r df IH]; simpl; [done|].
  rewrite insert_sorted_perm. by rewrite IH.
Qed.

Lemma insert_sorted_ascending r df :
  ascending df -> ascending (insert_sorted r df).
Proof.
  unfold ascending. induction df as [|r' df IH]; simpl; intros Hs.
  - repeat constructor.
  - destruct (date_leb (date r) (date r')) eqn:E.
    + constructor; [done|]. inversion_clear Hs as [|? ? Hs' Hall].
      constructor; [exact E|].
      eapply Forall_impl; [exact Hall|].
      intros x Hx. unfold date_le in *. eauto using date_leb_trans.
    + inversion_clear Hs as [|? ? Hs' Hall].
      constructor; [by apply IH|].
      rewrite insert_sorted_perm. constructor; [|done].
      by apply date_leb_total.
Qed.

Lemma sort_values_ascending df : ascending (sort_values df).
Proof.
  induction df as [|r df IH]; simpl; [constructor|].
  by apply insert_sorted_ascending.
Qed.

Lemma existsb_same_date r df :
  existsb (same_date r) df = true <-> date r ∈ date <$> df.
Proof.
  rewrite existsb_exists, list_elem_of_fmap. unfold same_date.
  split; intros (x & H1 & H2).
  - apply bool_decide_eq_true in H2. apply list_elem_of_In in H1. eauto.
  - exists x. split; [by apply list_elem_of_In|]. by apply bool_decide_eq_true.
Qed.

Lemma last_with_date_None d df :
  last_with_date d df = None <-> d ∉ date <$> df.
Proof.
  induction df as [|r df IH]; simpl.
  - split; [intros _; apply not_elem_of_nil | done].
  - rewrite not_elem_of_cons, <- IH.
    destruct (last_with_date d df); [naive_solver|].
    case_bool_decide; naive_solver.
Qed.

Lemma last_with_date_Some d df r :
  last_with_date d df = Some r -> date r = d ∧ r ∈ df.
Proof.
  induction df as [|x df IH]; simpl; [done|].
  destruct (last_with_date d df) as [r'|].
  - intros [= ->]. destruct IH as [? ?]; [done|]. split; [done|]. by right.
  - case_bool_decide; [|done]. intros [= ->]. split; [done|]. by left.
Qed.

Lemma last_with_date_app d (a b : @DataFrame V) :
  last_with_date d (a ++ b) =
  match last_with_date d b with
  | Some r => Some r
  | None => last_with_date d a
  end.
Proof.
  induction a as [|x a IH]; simpl.
  - by destruct (last_with_date d b).
  - rewrite IH. by destruct (last_with_date d b), (last_with_date d a).
Qed.

Lemma drop_duplicates_last_subset r df :
  r ∈ drop_duplicates_last df -> r ∈ df.
Proof.
  induction df as [|x df IH]; simpl; [done|].
  destruct (existsb (same_date x) df).
  - intros H. right. auto.
  - rewrite !elem_of_cons. naive_solver.
Qed.

(** [drop_duplicates] keeps, for each date, the last row that carries it. *)
Lemma drop_duplicates_last_spec r df :
  r ∈ drop_duplicates_last df <-> last_with_date (date r) df = Some r.
Proof.
  induction df as [|x df IH]; simpl.
  - split; [by intros ?%elem_of_nil | done].
  - destruct (existsb (same_date x) df) eqn:E.
    + rewrite IH. apply existsb_same_date in E.
      destruct (last_with_date (date r) df) as [r'|] eqn:El; [done|].
      split; [done|]. case_bool_decide as Hd; [|done].
      apply last_with_date_None in El. congruence.
    + assert (Hx : date x ∉ date <$> df).
      { intros Hin. apply existsb_same_date in Hin. congruence. }
      rewrite elem_of_cons, IH.
      destruct (last_with_date (date r) df) as [r'|] eqn:El.
      * split; [|by right]. intros [->|]; [|done].
        apply last_with_date_None in Hx. congruence.
      * case_bool_decide as Hd; naive_solver.
Qed.

Lemma drop_duplicates_last_NoDup df : NoDup (date <$> drop_duplicates_last df).
Proof.
  induction df as [|x df IH]; simpl; [constructor|].
  destruct (existsb (same_date x) df) eqn:E; [done|].
  rewrite fmap_cons. constructor; [|done].
  intros Hin. apply list_elem_of_fmap in Hin as (y & Hy & Hin).
  apply drop_duplicates_last_subset in Hin.
  assert (existsb (same_date x) df = true); [|congruence].
  apply existsb_same_date. rewrite Hy. apply list_elem_of_fmap. eauto.
Qed.

(** The merged table: unique dates, ascending, and under each date the
    fetched row when there is one, the cached row otherwise. *)
Lemma merge_frames_well_formed df dfn : well_formed (merge_frames df dfn).
Proof.
  unfold merge_frames. split; [|apply sort_values_ascending].
  rewrite sort_values_perm. apply drop_duplicates_last_NoDup.
Qed.

Lemma merge_frames_rows df dfn r :
  r ∈ merge_frames df dfn <->
  last_with_date (date r) dfn = Some r ∨
  (last_with_date (date r) dfn = None ∧ last_with_date (date r) df = Some r).
Proof.
  unfold merge_frames. rewrite sort_values_perm, drop_duplicates_last_spec.
  rewrite last_with_date_app.
  destruct (last_with_date (date r) dfn); naive_solver.
Qed.

(** ** Running the code *)

Lemma meta_name_neq (filename : string) : filename ≠ meta_name filename.
Proof.
  unfold meta_name.
  induction filename as [|c s IH]; simpl; [discriminate|].
  intros H. injection H as H. exact (IH H).
Qed.

(** Each private method as a function of the world it starts in. *)

Lemma _load_csv_run p w : _load_csv p w = (Ret (cached_frame (files w) p), w).
Proof.
  unfold _load_csv, try_except, bind, read_csv, cached_frame, _ensure_date_format.
  destruct (files w !! p) as [[raw| | |]|]; try reflexivity.
  destruct (to_datetime_col raw); reflexivity.
Qed.

Lemma _get_last_checked_run p w :
  _get_last_checked p w = (Ret (last_checked_of (files w) p), w).
Proof.
  unfold _get_last_checked, try_except, bind, path_exists, read_last_checked,
    last_checked_of, ret.
  destruct (files w !! p) as [[raw|[t|]| |]|] eqn:E; simpl; rewrite ?E; reflexivity.
Qed.

Lemma _update_meta_run p w :
  _update_meta p w =
  (Ret tt, set_files <[p := FMeta (DateOk (clock w (ticks w)))]> (tick w)).
Proof. reflexivity. Qed.

Lemma _pull_from_hub_run name w :
  _pull_from_hub name w = (Ret (can_pull name w), pulled name w).
Proof.
  unfold _pull_from_hub, try_except, bind, hf_hub_download, can_pull, pulled, ret.
  destruct (hub_online w); [|reflexivity].
  destruct (hub w !! name); reflexivity.
Qed.

Lemma _save_and_push_run filename df w :
  _save_and_push filename df filename (meta_name filename) w
  = (Ret tt, saved filename df w).
Proof.
  unfold _save_and_push, saved, try_except, bind, write_file, _update_meta,
    datetime_now, upload_file, bind, ret.
  simpl. destruct (hub_online w) eqn:E; [|reflexivity].
  rewrite lookup_insert_ne by (symmetry; apply meta_name_neq).
  rewrite lookup_insert_eq. simpl. rewrite E, lookup_insert_eq. reflexivity.
Qed.

Lemma _push_meta_only_run filename w :
  _push_meta_only filename (meta_name filename) w = (Ret tt, meta_pushed filename w).
Proof.
  unfold _push_meta_only, meta_pushed, try_except, upload_file, ret.
  destruct (hub_online w); [|reflexivity].
  destruct (files w !! meta_name filename); reflexivity.
Qed.

(** A Full Fetch, case by case on what the loader does. *)
Lemma _fetch_and_save_run filename loader start_date kwargs w :
  _fetch_and_save filename loader (meta_name filename) start_date kwargs w =
  let w' := log_fetch (start_date, kwargs) w in
  match loader start_date kwargs with
  | LoaderRaises => (Ret (PyDataFrame []), w')
  | LoaderNone => (Ret PyNone, w')
  | LoaderFrame raw =>
      if empty raw then (Ret (PyDataFrame []), w')
      else match to_datetime_col raw with
           | Some df => (Ret (PyDataFrame df), saved filename df w')
           | None => (Ret (PyDataFrame []), w')
           end
  end.
Proof.
  unfold _fetch_and_save, try_except, bind at 1, fetch_data.
  destruct (loader start_date kwargs) as [| |raw]; try reflexivity.
  destruct raw as [|r raw]; [reflexivity|].
  unfold _ensure_date_format, bind.
  destruct (to_datetime_col (r :: raw)) as [df|]; [|reflexivity].
  cbn [empty negb]. unfold ret at 1. rewrite _save_and_push_run. reflexivity.
Qed.

(** [get_data] when the local file is there: straight to the load. *)
Lemma get_data_present filename loader ci sd kw w f :
  files w !! filename = Some f ->
  get_data filename loader ci sd kw w = get_cached filename loader ci sd kw w.
Proof.
  intros H. unfold get_data, bind at 1, path_exists. rewrite H. reflexivity.
Qed.

(** [get_cached] on a table with rows: the cooldown test decides. *)
Lemma get_cached_nonempty filename loader ci sd kw w :
  cached_frame (files w) filename ≠ [] ->
  get_cached filename loader ci sd kw w =
  let df := cached_frame (files w) filename in
  if clock w (ticks w) - last_checked_of (files w) (meta_name filename) <? ci
  then (Ret (PyDataFrame df), tick w)
  else try_except (refresh filename loader sd kw df) (ret (PyDataFrame df)) (tick w).
Proof.
  intros Hne. unfold get_cached, bind at 1. rewrite _load_csv_run.
  destruct (cached_frame (files w) filename) as [|r df] eqn:E; [done|].
  cbn [empty]. unfold bind at 1. rewrite _get_last_checked_run.
  unfold bind at 1, datetime_now. cbv zeta.
  destruct (_ <? ci); reflexivity.
Qed.

Lemma cached_frame_present fs p :
  cached_frame fs p ≠ [] -> is_Some (fs !! p).
Proof.
  unfold cached_frame. destruct (fs !! p); [eauto | done].
Qed.

(** The refresh, case by case. *)
Lemma refresh_run filename loader sd kw df w :
  refresh filename loader sd kw df w =
  let w1 := tick w in
  let today := midnight (clock w (ticks w)) in
  match backfill_due sd df with
  | None => (Raise, w1)
  | Some true => _fetch_and_save filename loader (meta_name filename) sd kw w1
  | Some false =>
      match date_max df with
      | Some mx =>
          if mx <? today - timedelta_days 1 then
            let next_day := mx + timedelta_days 1 in
            if clock w (S (ticks w)) <? next_day
            then (Ret (PyDataFrame df), touched filename (tick w1))
            else
              let start := Some (strftime_ymd next_day) in
              let kw' := delete "start_date"%string kw in
              let w2 := log_fetch (start, kw') (tick w1) in
              match loader start kw' with
              | LoaderRaises | LoaderNone => (Raise, w2)
              | LoaderFrame raw =>
                  if empty raw
                  then (Ret (PyDataFrame df), meta_pushed filename (touched filename w2))
                  else match to_datetime_col raw with
                       | Some dfn =>
                           (Ret (PyDataFrame (merge_frames df dfn)),
                            saved filename (merge_frames df dfn) w2)
                       | None => (Raise, w2)
                       end
              end
          else (Ret (PyDataFrame df), touched filename w1)
      | None => (Ret (PyDataFrame df), touched filename w1)
      end
  end.
Proof.
  unfold refresh. cbv zeta. unfold bind at 1, datetime_now at 1.
  unfold bind at 1.
  destruct sd as [[t|]|]; cbn [backfill_due to_datetime]; [| reflexivity |].
  - unfold bind at 1, ret at 1, ret at 1.
    destruct (older_than_cache t (date_min df)); [reflexivity|].
    destruct (date_max df) as [mx|]; [|reflexivity].
    destruct (mx <? _); [|reflexivity].
    unfold bind at 1, datetime_now at 1. cbn [ticks tick clock].
    destruct (_ <? mx + _); [reflexivity|].
    unfold bind at 1, fetch_data.
    destruct (loader _ _) as [| |raw]; try reflexivity.
    destruct raw as [|r raw]; cbn [empty negb].
    + unfold bind at 1. rewrite _update_meta_run.
      unfold bind at 1. rewrite _push_meta_only_run. reflexivity.
    + unfold bind at 1, _ensure_date_format.
      destruct (to_datetime_col (r :: raw)) as [dfn|]; [|reflexivity].
      unfold ret at 1, bind at 1. rewrite _save_and_push_run. reflexivity.
  - unfold ret at 1.
    destruct (date_max df) as [mx|]; [|reflexivity].
    destruct (mx <? _); [|reflexivity].
    unfold bind at 1, datetime_now at 1. cbn [ticks tick clock].
    destruct (_ <? mx + _); [reflexivity|].
    unfold bind at 1, fetch_data.
    destruct (loader _ _) as [| |raw]; try reflexivity.
    destruct raw as [|r raw]; cbn [empty negb].
    + unfold bind at 1. rewrite _update_meta_run.
      unfold bind at 1. rewrite _push_meta_only_run. reflexivity.
    + unfold bind at 1, _ensure_date_format.
      destruct (to_datetime_col (r :: raw)) as [dfn|]; [|reflexivity].
      unfold ret at 1, bind at 1. rewrite _save_and_push_run. reflexivity.
Qed.

(** What the hypotheses of the theorems below say about the world. *)
Lemma load_eq p w df :
  fst (_load_csv p w) = Ret df -> cached_frame (files w) p = df.
Proof. rewrite _load_csv_run. simpl. congruence. Qed.

Lemma last_checked_eq p w lc :
  fst (_get_last_checked p w) = Ret lc -> last_checked_of (files w) p = lc.
Proof. rewrite _get_last_checked_run. simpl. congruence. Qed.

Lemma get_cached_empty filename loader ci sd kw w :
  cached_frame (files w) filename = [] ->
  get_cached filename loader ci sd kw w =
  _fetch_and_save filename loader (meta_name filename) sd kw w.
Proof.
  intros He. unfold get_cached, bind at 1. rewrite _load_csv_run, He.
  reflexivity.
Qed.

(** [get_data] when the local file is missing: recovery, then the load, or
    a Full Fetch. *)
Lemma get_data_absent filename loader ci sd kw w :
  files w !! filename = None ->
  get_data filename loader ci sd kw w =
  if can_pull filename w
  then get_cached filename loader ci sd kw
         (pulled (meta_name filename) (pulled filename w))
  else _fetch_and_save filename loader (meta_name filename) sd kw w.
Proof.
  intros H. unfold get_data, bind at 1, path_exists. rewrite H. cbn [negb].
  unfold bind at 1. rewrite _pull_from_hub_run.
  destruct (can_pull filename w) eqn:E.
  - unfold bind at 1. rewrite _pull_from_hub_run. reflexivity.
  - unfold pulled, can_pull in *.
    destruct (hub_online w); [|reflexivity].
    destruct (hub w !! filename); [done | reflexivity].
Qed.

(** Past the cooldown, on a table with rows, [get_data] is the guarded
    refresh. *)
Lemma get_data_expired filename loader ci sd kw w df lc :
  fst (_load_csv filename w) = Ret df -> df ≠ [] ->
  fst (_get_last_checked (meta_name filename) w) = Ret lc ->
  ci <= clock w (ticks w) - lc ->
  get_data filename loader ci sd kw w =
  try_except (refresh filename loader sd kw df) (ret (PyDataFrame df)) (tick w).
Proof.
  intros Hdf Hne Hlc Hexp.
  apply load_eq in Hdf. apply last_checked_eq in Hlc.
  destruct (cached_frame_present (files w) filename) as [f Hf]; [congruence|].
  rewrite (get_data_present _ _ _ _ _ _ f) by done.
  rewrite get_cached_nonempty by congruence.
  cbv zeta. rewrite Hlc, Hdf.
  destruct (Z.ltb_spec (clock w (ticks w) - lc) ci); [lia | reflexivity].
Qed.

Lemma midnight_le t : midnight t <= t.
Proof.
  unfold midnight. pose proof (Z.mod_pos_bound t us_per_day).
  unfold us_per_day in *. lia.
Qed.

(** ** Within the cooldown *)

(** Within the cooldown, on a table with rows, [get_data] returns the
    cached table and only reads the clock. *)
Lemma get_data_in_cooldown filename loader ci sd kw w df lc :
  cached_frame (files w) filename = df -> df ≠ [] ->
  last_checked_of (files w) (meta_name filename) = lc ->
  clock w (ticks w) - lc < ci ->
  get_data filename loader ci sd kw w = (Ret (PyDataFrame df), tick w).
Proof.
  intros Hdf Hne Hlc Hc.
  destruct (cached_frame_present (files w) filename) as [f Hf]; [congruence|].
  rewrite (get_data_present _ _ _ _ _ _ f) by done.
  rewrite get_cached_nonempty by congruence.
  cbv zeta. rewrite Hlc, Hdf.
  destruct (Z.ltb_spec (clock w (ticks w) - lc) ci); [reflexivity | lia].
Qed.

(** C2.  When the cached table has rows and less than the cooldown has
    passed since [last_checked], [get_data] returns the cached table, calls
    no loader and writes no file, local or remote; a second call that is
    still within the cooldown does the same and returns the same table. *)
Theorem cooldown_short_circuit filename loader ci sd kw w df lc :
  fst (_load_csv filename w) = Ret df -> df ≠ [] ->
  fst (_get_last_checked (meta_name filename) w) = Ret lc ->
  clock w (ticks w) - lc < ci ->
  let r := get_data filename loader ci sd kw w in
  fst r = Ret (PyDataFrame df) ∧
  fetch_log (snd r) = fetch_log w ∧
  files (snd r) = files w ∧ hub (snd r) = hub w ∧
  ∀ loader' sd' kw',
    clock (snd r) (ticks (snd r)) - lc < ci ->
    let r' := get_data filename loader' ci sd' kw' (snd r) in
    fst r' = fst r ∧ fetch_log (snd r') = fetch_log w ∧
    files (snd r') = files w.
Proof.
  intros Hdf Hne Hlc Hcool.
  apply load_eq in Hdf. apply last_checked_eq in Hlc.
  cbv zeta.
  rewrite (get_data_in_cooldown filename loader ci sd kw w df lc) by done.
  cbn [fst snd]. do 4 (split; [reflexivity|]).
  intros loader' sd' kw' Hc'.
  rewrite (get_data_in_cooldown filename loader' ci sd' kw' (tick w) df lc)
    by done.
  done.
Qed.

(** ** The incremental refresh *)

(** C4.  On an incremental refresh in which the loader returns rows, the
    table returned and saved is the concatenation of the cached and the
    fetched rows, deduplicated by date and sorted: its dates are unique, it
    is ascending by date, and under each date it holds the fetched row when
    the loader returned one for that date and the cached row otherwise. *)
Theorem incremental_merge filename loader ci sd kw w df lc mx raw dfn :
  fst (_load_csv filename w) = Ret df -> df ≠ [] ->
  fst (_get_last_checked (meta_name filename) w) = Ret lc ->
  ci <= clock w (ticks w) - lc ->
  backfill_due sd df = Some false ->
  date_max df = Some mx ->
  mx < midnight (clock w (S (ticks w))) - timedelta_days 1 ->
  clock w (S (ticks w)) <= clock w (S (S (ticks w))) ->
  loader (Some (strftime_ymd (mx + timedelta_days 1)))
         (delete "start_date"%string kw) = LoaderFrame raw ->
  raw ≠ [] -> to_datetime_col raw = Some dfn ->
  ∃ m w',
    get_data filename loader ci sd kw w = (Ret (PyDataFrame m), w') ∧
    m = sort_values (drop_duplicates_last (df ++ dfn)) ∧
    NoDup (date <$> m) ∧ ascending m ∧
    (∀ r, r ∈ m <->
          last_with_date (date r) dfn = Some r ∨
          (last_with_date (date r) dfn = None ∧
           last_with_date (date r) df = Some r)) ∧
    files w' !! filename = Some (FCsv (to_csv m)).
Proof.
  intros Hdf Hne Hlc Hexp Hbf Hmx Hold Hclk Hld Hraw Hparse.
  exists (merge_frames df dfn). eexists.
  rewrite (get_data_expired _ _ _ _ _ _ df lc) by done.
  unfold try_except. rewrite refresh_run. cbv zeta.
  rewrite Hbf, Hmx. cbn [tick ticks clock].
  destruct (Z.ltb_spec mx (midnight (clock w (S (ticks w))) - timedelta_days 1));
    [|lia].
  pose proof (midnight_le (clock w (S (ticks w)))).
  assert (0 < timedelta_days 1) by done.
  destruct (Z.ltb_spec (clock w (S (S (ticks w)))) (mx + timedelta_days 1));
    [lia|].
  rewrite Hld. destruct raw as [|r0 raw]; [done|]. cbn [empty].
  rewrite Hparse.
  split; [reflexivity|]. split; [reflexivity|].
  destruct (merge_frames_well_formed df dfn) as [Hnd Hasc].
  split; [done|]. split; [done|]. split; [apply merge_frames_rows|].
  unfold saved. cbv zeta.
  destruct (hub_online _); simpl;
    (rewrite lookup_insert_ne by (symmetry; apply meta_name_neq));
    apply lookup_insert_eq.
Qed.

(** ** Backfill *)

(** A Full Fetch never raises, so the guard around the refresh is
    transparent to it. *)
Lemma try_except_fetch_and_save filename loader sd kw (h : M PyValue) w :
  try_except (_fetch_and_save filename loader (meta_name filename) sd kw) h w =
  _fetch_and_save filename loader (meta_name filename) sd kw w.
Proof.
  unfold try_except. rewrite _fetch_and_save_run. cbv zeta.
  destruct (loader sd kw) as [| |raw]; try reflexivity.
  destruct (empty raw); [reflexivity|].
  destruct (to_datetime_col raw); reflexivity.
Qed.

Lemma fetch_and_save_log filename loader sd kw w :
  fetch_log (snd (_fetch_and_save filename loader (meta_name filename) sd kw w))
  = (sd, kw) :: fetch_log w.
Proof.
  rewrite _fetch_and_save_run. cbv zeta.
  destruct (loader sd kw) as [| |raw]; try reflexivity.
  destruct (empty raw); [reflexivity|].
  destruct (to_datetime_col raw); [|reflexivity].
  unfold saved. cbv zeta. simpl. destruct (hub_online w); reflexivity.
Qed.

Lemma saved_data_file filename df w :
  files (saved filename df w) !! filename = Some (FCsv (to_csv df)).
Proof.
  unfold saved. cbv zeta.
  destruct (hub_online w); simpl;
    (rewrite lookup_insert_ne by (symmetry; apply meta_name_neq));
    apply lookup_insert_eq.
Qed.

Lemma saved_meta_file filename df w :
  files (saved filename df w) !! meta_name filename
  = Some (FMeta (DateOk (clock w (ticks w)))).
Proof.
  unfold saved. cbv zeta.
  destruct (hub_online w); simpl; apply lookup_insert_eq.
Qed.

(** C5.  When the requested start lies more than five days before the
    earliest cached date: past the cooldown, [get_data] is a Full Fetch
    from the requested start (one loader call, with the caller's start date
    and parameters, and the rows it returns replace the cached file, with no
    merge); within the cooldown, the cached table is returned and the
    loader is not called. *)
Theorem backfill_full_fetch filename loader ci t kw w df lc mn :
  fst (_load_csv filename w) = Ret df -> df ≠ [] ->
  fst (_get_last_checked (meta_name filename) w) = Ret lc ->
  date_min df = Some mn ->
  t + timedelta_days 5 < mn ->
  let sd := Some (DateOk t) in
  let r := get_data filename loader ci sd kw w in
  (ci <= clock w (ticks w) - lc ->
     r = _fetch_and_save filename loader (meta_name filename) sd kw (tick (tick w)) ∧
     fetch_log (snd r) = (sd, kw) :: fetch_log w ∧
     ∀ raw dfn, loader sd kw = LoaderFrame raw -> raw ≠ [] ->
                to_datetime_col raw = Some dfn ->
                fst r = Ret (PyDataFrame dfn) ∧
                files (snd r) !! filename = Some (FCsv (to_csv dfn))) ∧
  (clock w (ticks w) - lc < ci ->
     fst r = Ret (PyDataFrame df) ∧
     fetch_log (snd r) = fetch_log w ∧
     files (snd r) = files w).
Proof.
  intros Hdf Hne Hlc Hmn Hlt sd r. split.
  - intros Hexp.
    assert (Hr : r = _fetch_and_save filename loader (meta_name filename) sd kw
                       (tick (tick w))).
    { unfold r. rewrite (get_data_expired _ _ _ _ _ _ df lc) by done.
      unfold try_except. rewrite refresh_run. cbv zeta.
      unfold sd at 1. cbn [backfill_due]. rewrite Hmn. unfold older_than_cache.
      destruct (Z.ltb_spec (t + timedelta_days 5) mn); [|lia].
      apply (try_except_fetch_and_save _ _ _ _ (ret (PyDataFrame df))). }
    split; [exact Hr|]. rewrite Hr.
    split; [by rewrite fetch_and_save_log|].
    intros raw dfn Hld Hraw Hparse.
    rewrite _fetch_and_save_run. cbv zeta. rewrite Hld.
    destruct raw as [|r0 raw]; [done|]. cbn [empty]. rewrite Hparse.
    split; [reflexivity|]. apply saved_data_file.
  - intros Hcool. unfold r.
    apply load_eq in Hdf. apply last_checked_eq in Hlc.
    by rewrite (get_data_in_cooldown filename loader ci sd kw w df lc).
Qed.

(** ** Forward fill *)

(** The forward fill of lines 68 to 104.  Past the cooldown and with no
    backfill due:
    when the latest cached date is more than one day before today's
    midnight, [get_data] calls the loader with the day after the latest
    cached date as start; otherwise, and so whenever the latest cached date
    is today or later, it only records the check and returns the cached
    table, without a loader call. *)
Theorem forward_fill filename loader ci sd kw w df lc mx :
  fst (_load_csv filename w) = Ret df -> df ≠ [] ->
  fst (_get_last_checked (meta_name filename) w) = Ret lc ->
  ci <= clock w (ticks w) - lc ->
  backfill_due sd df = Some false ->
  date_max df = Some mx ->
  clock w (S (ticks w)) <= clock w (S (S (ticks w))) ->
  let today := midnight (clock w (S (ticks w))) in
  let r := get_data filename loader ci sd kw w in
  (mx < today - timedelta_days 1 ->
     fetch_log (snd r) =
     (Some (strftime_ymd (mx + timedelta_days 1)), delete "start_date"%string kw)
       :: fetch_log w) ∧
  (today - timedelta_days 1 <= mx ->
     fst r = Ret (PyDataFrame df) ∧
     fetch_log (snd r) = fetch_log w ∧
     files (snd r) =
       <[meta_name filename := FMeta (DateOk (clock w (S (S (ticks w)))))]> (files w) ∧
     hub (snd r) = hub w).
Proof.
  intros Hdf Hne Hlc Hexp Hbf Hmx Hclk today r.
  assert (Hr : r = try_except (refresh filename loader sd kw df)
                     (ret (PyDataFrame df)) (tick w)).
  { unfold r. by rewrite (get_data_expired _ _ _ _ _ _ df lc). }
  unfold try_except in Hr. rewrite refresh_run in Hr. cbv zeta in Hr.
  rewrite Hbf, Hmx in Hr. cbn [tick ticks clock] in Hr. fold today in Hr.
  split; intros Hcmp.
  - destruct (Z.ltb_spec mx (today - timedelta_days 1)); [|lia].
    pose proof (midnight_le (clock w (S (ticks w)))) as Hmid. fold today in Hmid.
    assert (0 < timedelta_days 1) by done.
    destruct (Z.ltb_spec (clock w (S (S (ticks w)))) (mx + timedelta_days 1));
      [lia|].
    rewrite Hr.
    destruct (loader _ _) as [| |raw]; try reflexivity.
    destruct (empty raw).
    + unfold meta_pushed. simpl. destruct (hub_online w); [|reflexivity].
      destruct (_ !! _); reflexivity.
    + destruct (to_datetime_col raw); [|reflexivity].
      unfold saved. cbv zeta. simpl. destruct (hub_online w); reflexivity.
  - destruct (Z.ltb_spec mx (today - timedelta_days 1)); [lia|].
    rewrite Hr. done.
Qed.

(** ** When [last_checked] moves *)

(** C7, as the code has it.  An incremental refresh in which the loader
    answers records the check whether or not it brought rows; with no rows
    the cached table is returned and the dataset is left as it was.  A Full
    Fetch records the check when the loader returned at least one row, and
    writes nothing at all when the loader returned no rows, returned
    [None] or raised. *)
Theorem last_checked_updates filename loader sd kw :
  (∀ ci w df lc mx raw dfn,
     fst (_load_csv filename w) = Ret df -> df ≠ [] ->
     fst (_get_last_checked (meta_name filename) w) = Ret lc ->
     ci <= clock w (ticks w) - lc ->
     backfill_due sd df = Some false ->
     date_max df = Some mx ->
     mx < midnight (clock w (S (ticks w))) - timedelta_days 1 ->
     clock w (S (ticks w)) <= clock w (S (S (ticks w))) ->
     loader (Some (strftime_ymd (mx + timedelta_days 1)))
            (delete "start_date"%string kw) = LoaderFrame raw ->
     to_datetime_col raw = Some dfn ->
     let r := get_data filename loader ci sd kw w in
     files (snd r) !! meta_name filename
     = Some (FMeta (DateOk (clock w (S (S (S (ticks w))))))) ∧
     (raw = [] ->
      fst r = Ret (PyDataFrame df) ∧
      files (snd r) !! filename = files w !! filename)) ∧
  (∀ w,
     let r := _fetch_and_save filename loader (meta_name filename) sd kw w in
     (∀ raw df, loader sd kw = LoaderFrame raw -> raw ≠ [] ->
                to_datetime_col raw = Some df ->
                files (snd r) !! meta_name filename
                = Some (FMeta (DateOk (clock w (ticks w))))) ∧
     (loader sd kw = LoaderFrame [] ∨ loader sd kw = LoaderNone ∨
      loader sd kw = LoaderRaises ->
      files (snd r) = files w)).
Proof.
  split.
  - intros ci w df lc mx raw dfn Hdf Hne Hlc Hexp Hbf Hmx Hold Hclk Hld Hparse r.
    unfold r. rewrite (get_data_expired _ _ _ _ _ _ df lc) by done.
    unfold try_except. rewrite refresh_run. cbv zeta.
    rewrite Hbf, Hmx. cbn [tick ticks clock].
    destruct (Z.ltb_spec mx (midnight (clock w (S (ticks w))) - timedelta_days 1));
      [|lia].
    pose proof (midnight_le (clock w (S (ticks w)))).
    assert (0 < timedelta_days 1) by done.
    destruct (Z.ltb_spec (clock w (S (S (ticks w)))) (mx + timedelta_days 1));
      [lia|].
    rewrite Hld. destruct raw as [|r0 raw]; cbn [empty].
    + assert (Hfs : files (meta_pushed filename (touched filename
                 (log_fetch (Some (strftime_ymd (mx + timedelta_days 1)),
                             delete "start_date"%string kw)
                    (tick (tick (tick w))))))
               = <[meta_name filename :=
                     FMeta (DateOk (clock w (S (S (S (ticks w))))))]> (files w)).
      { unfold meta_pushed. simpl. destruct (hub_online w); [|reflexivity].
        destruct (_ !! _); reflexivity. }
      cbn [fst snd]. rewrite Hfs. split; [apply lookup_insert_eq|].
      intros _. split; [reflexivity|].
      apply lookup_insert_ne. symmetry. apply meta_name_neq.
    + rewrite Hparse. cbn [snd]. split; [by rewrite saved_meta_file | done].
  - intros w r. unfold r. rewrite _fetch_and_save_run. cbv zeta. split.
    + intros raw df Hld Hraw Hparse. rewrite Hld.
      destruct raw as [|r0 raw]; [done|]. cbn [empty]. rewrite Hparse.
      cbn [snd]. by rewrite saved_meta_file.
    + intros [-> | [-> | ->]]; reflexivity.
Qed.

(** ** Recovery from the archive *)

Lemma pulled_clock name w :
  clock (pulled name w) = clock w ∧ ticks (pulled name w) = ticks w ∧
  fetch_log (pulled name w) = fetch_log w ∧ hub (pulled name w) = hub w ∧
  hub_online (pulled name w) = hub_online w.
Proof.
  unfold pulled. destruct (hub_online w) eqn:E; [|done].
  destruct (hub w !! name); done.
Qed.

(** C8, as the code has it.  With no local file and a dataset with rows in
    the archive, [get_data] pulls the dataset and its metadata and carries
    on as for a cached dataset, with the [last_checked] of the metadata
    file then on disk: the record of the archive when it has one, and
    otherwise whatever metadata file was left in the data directory
    ([datetime.min] when there is none or it cannot be read).  It returns
    the recovered table without a loader call when that [last_checked] is
    within the cooldown, and runs the refresh otherwise. *)
Theorem archive_recovery filename loader ci sd kw w raw df :
  files w !! filename = None ->
  hub_online w = true ->
  hub w !! filename = Some (FCsv raw) ->
  to_datetime_col raw = Some df -> df ≠ [] ->
  let w1 := snd (_pull_from_hub (meta_name filename)
                   (snd (_pull_from_hub filename w))) in
  let lc := last_checked_of (files w1) (meta_name filename) in
  let r := get_data filename loader ci sd kw w in
  fst (_load_csv filename w1) = Ret df ∧
  fst (_get_last_checked (meta_name filename) w1) = Ret lc ∧
  (clock w (ticks w) - lc < ci ->
     fst r = Ret (PyDataFrame df) ∧ fetch_log (snd r) = fetch_log w) ∧
  (ci <= clock w (ticks w) - lc ->
     r = try_except (refresh filename loader sd kw df) (ret (PyDataFrame df))
           (tick w1)) ∧
  lc = last_checked_of
         (match hub w !! meta_name filename with
          | Some m => <[meta_name filename := m]> (files w)
          | None => files w
          end) (meta_name filename).
Proof.
  intros Habs Hon Hhub Hparse Hne w1 lc r.
  assert (Hw1 : w1 = pulled (meta_name filename) (pulled filename w)).
  { unfold w1. by rewrite !_pull_from_hub_run. }
  assert (Hlc : lc = last_checked_of
                       (match hub w !! meta_name filename with
                        | Some m => <[meta_name filename := m]> (files w)
                        | None => files w
                        end) (meta_name filename)).
  { unfold lc, last_checked_of. rewrite Hw1. unfold pulled at 2.
    rewrite Hon, Hhub. unfold pulled. simpl. rewrite Hon.
    destruct (hub w !! meta_name filename); simpl.
    - by rewrite !lookup_insert_eq.
    - by rewrite lookup_insert_ne by apply meta_name_neq. }
  assert (Hcan : can_pull filename w = true).
  { unfold can_pull. by rewrite Hon, Hhub. }
  assert (Hfile : files w1 !! filename = Some (FCsv raw)).
  { rewrite Hw1. unfold pulled at 2. rewrite Hon, Hhub.
    unfold pulled. simpl. rewrite Hon.
    destruct (hub w !! meta_name filename); simpl.
    - rewrite lookup_insert_ne by (symmetry; apply meta_name_neq).
      apply lookup_insert_eq.
    - apply lookup_insert_eq. }
  assert (Hdf : cached_frame (files w1) filename = df).
  { unfold cached_frame. by rewrite Hfile, Hparse. }
  assert (Hclk : clock w1 = clock w ∧ ticks w1 = ticks w ∧
                 fetch_log w1 = fetch_log w).
  { rewrite Hw1.
    destruct (pulled_clock (meta_name filename) (pulled filename w))
      as (-> & -> & -> & _).
    destruct (pulled_clock filename w) as (-> & -> & -> & _). done. }
  destruct Hclk as (Hc & Ht & Hl).
  assert (Hr : r = get_cached filename loader ci sd kw w1).
  { unfold r. rewrite get_data_absent by done. by rewrite Hcan, Hw1. }
  split; [rewrite _load_csv_run; cbn [fst]; by rewrite Hdf|].
  split; [by rewrite _get_last_checked_run|].
  rewrite Hr, get_cached_nonempty by congruence. cbv zeta.
  rewrite Hdf, Hc, Ht. fold lc. split; [|split; [|exact Hlc]]; intros Hcmp.
  - destruct (Z.ltb_spec (clock w (ticks w) - lc) ci); [|lia]. done.
  - destruct (Z.ltb_spec (clock w (ticks w) - lc) ci); [lia|]. done.
Qed.

(** ** The dataset invariant *)

Lemma to_datetime_col_to_csv df : to_datetime_col (to_csv df) = Some df.
Proof.
  induction df as [|[d v] df IH]; [reflexivity|].
  change (to_csv (mkRow d v :: df))
    with (mkRawRow (DateOk <$> d) v :: to_csv df).
  cbn [to_datetime_col raw_date raw_vals]. rewrite IH. by destruct d.
Qed.

Lemma cached_frame_insert_eq fs p df :
  cached_frame (<[p := FCsv (to_csv df)]> fs) p = df.
Proof.
  unfold cached_frame. by rewrite lookup_insert_eq, to_datetime_col_to_csv.
Qed.

Lemma cached_frame_insert_ne fs p q f :
  q ≠ p -> cached_frame (<[q := f]> fs) p = cached_frame fs p.
Proof. intros Hne. unfold cached_frame. by rewrite lookup_insert_ne. Qed.

Lemma well_formed_nil : @well_formed V [].
Proof. split; constructor. Qed.

Lemma store_ok_touched filename w :
  store_ok filename w -> store_ok filename (touched filename w).
Proof.
  unfold store_ok, touched. simpl.
  by rewrite cached_frame_insert_ne by (symmetry; apply meta_name_neq).
Qed.

Lemma store_ok_meta_pushed filename w :
  store_ok filename w -> store_ok filename (meta_pushed filename w).
Proof.
  unfold store_ok, meta_pushed. destruct (hub_online w); [|done].
  destruct (files w !! meta_name filename); [|done]. simpl.
  by rewrite cached_frame_insert_ne by (symmetry; apply meta_name_neq).
Qed.

Lemma store_ok_saved filename df w :
  well_formed df -> store_ok filename w -> store_ok filename (saved filename df w).
Proof.
  intros Hdf [_ Hhub]. unfold store_ok, saved. cbv zeta.
  destruct (hub_online w); simpl;
    rewrite ?(cached_frame_insert_ne _ filename (meta_name filename))
      by (symmetry; apply meta_name_neq);
    rewrite ?cached_frame_insert_eq; done.
Qed.

Lemma store_ok_pulled filename w :
  store_ok filename w -> store_ok filename (pulled filename w).
Proof.
  intros [Hf Hh]. unfold store_ok, pulled.
  destruct (hub_online w); [|done].
  destruct (hub w !! filename) as [f|] eqn:E; [|done]. simpl.
  split; [|done]. unfold cached_frame in *.
  rewrite lookup_insert_eq. by rewrite E in Hh.
Qed.

Lemma store_ok_pulled_meta filename w :
  store_ok filename w -> store_ok filename (pulled (meta_name filename) w).
Proof.
  intros [Hf Hh]. unfold store_ok, pulled.
  destruct (hub_online w); [|done].
  destruct (hub w !! meta_name filename) as [f|]; [|done]. simpl.
  by rewrite cached_frame_insert_ne by (symmetry; apply meta_name_neq).
Qed.

Lemma fetch_and_save_ok filename loader sd kw w :
  loader_ok loader -> store_ok filename w ->
  let r := _fetch_and_save filename loader (meta_name filename) sd kw w in
  value_ok (fst r) ∧ store_ok filename (snd r).
Proof.
  intros Hld Hw r. unfold r. rewrite _fetch_and_save_run. cbv zeta.
  destruct (loader sd kw) as [| |raw] eqn:E; try (split; [exact well_formed_nil || exact I | exact Hw]).
  destruct (empty raw); [split; [exact well_formed_nil | exact Hw]|].
  destruct (to_datetime_col raw) as [df|] eqn:Ep;
    [|split; [exact well_formed_nil | exact Hw]].
  pose proof (Hld _ _ _ _ E Ep) as Hdf.
  split; [exact Hdf|]. by apply store_ok_saved.
Qed.

Lemma guarded_refresh_ok filename loader sd kw df w :
  loader_ok loader -> store_ok filename w -> well_formed df ->
  let r := try_except (refresh filename loader sd kw df)
             (ret (PyDataFrame df)) w in
  value_ok (fst r) ∧ store_ok filename (snd r).
Proof.
  intros Hld Hw Hdf r. unfold r, try_except. rewrite refresh_run. cbv zeta.
  destruct (backfill_due sd df) as [[|]|]; [| |by split].
  - destruct (fetch_and_save_ok filename loader sd kw (tick w) Hld Hw) as [H1 H2].
    destruct (_fetch_and_save _ _ _ _ _ _) as [[v|] w']; by split.
  - destruct (date_max df) as [mx|];
      [|split; [done | by apply store_ok_touched]].
    destruct (_ <? _); [|split; [done | by apply store_ok_touched]].
    destruct (_ <? _); [split; [done | by apply store_ok_touched]|].
    destruct (loader _ _) as [| |raw]; [by split | by split |].
    destruct (empty raw).
    + split; [done|]. by apply store_ok_meta_pushed, store_ok_touched.
    + destruct (to_datetime_col raw) as [dfn|]; [|by split].
      split; [apply merge_frames_well_formed|].
      apply store_ok_saved; [apply merge_frames_well_formed | done].
Qed.

Lemma get_cached_ok filename loader ci sd kw w :
  loader_ok loader -> store_ok filename w ->
  let r := get_cached filename loader ci sd kw w in
  value_ok (fst r) ∧ store_ok filename (snd r).
Proof.
  intros Hld Hw r. unfold r.
  destruct (cached_frame (files w) filename) as [|r0 df] eqn:E.
  - rewrite get_cached_empty by done. by apply fetch_and_save_ok.
  - rewrite get_cached_nonempty by congruence. cbv zeta. rewrite E.
    assert (Hdf : well_formed (r0 :: df)) by (rewrite <- E; apply Hw).
    destruct (_ <? ci); [by split|].
    by apply guarded_refresh_ok.
Qed.

(** C9, as the code has it.  The merge always yields unique, ascending
    dates.  A Full Fetch returns and stores the loader's rows as delivered,
    neither deduplicated nor sorted.  Hence, with a loader that delivers
    only well-formed tables and local and archived datasets that are
    well-formed before the call, the table [get_data] returns and the
    datasets it leaves behind are well-formed. *)
Theorem well_formed_preserved filename loader sd kw :
  (∀ df dfn, well_formed (merge_frames df dfn)) ∧
  (∀ w raw df,
     loader sd kw = LoaderFrame raw -> raw ≠ [] ->
     to_datetime_col raw = Some df ->
     let r := _fetch_and_save filename loader (meta_name filename) sd kw w in
     fst r = Ret (PyDataFrame df) ∧
     files (snd r) !! filename = Some (FCsv (to_csv df))) ∧
  (∀ ci w,
     loader_ok loader -> store_ok filename w ->
     let r := get_data filename loader ci sd kw w in
     (∀ df, fst r = Ret (PyDataFrame df) -> well_formed df) ∧
     store_ok filename (snd r)).
Proof.
  split; [apply merge_frames_well_formed|]. split.
  - intros w raw df Hld Hraw Hparse r. unfold r.
    rewrite _fetch_and_save_run. cbv zeta. rewrite Hld.
    destruct raw as [|r0 raw]; [done|]. cbn [empty]. rewrite Hparse.
    split; [reflexivity|]. cbn [snd]. by rewrite saved_data_file.
  - intros ci w Hld Hw r.
    assert (H : value_ok (fst r) ∧ store_ok filename (snd r)).
    { unfold r. destruct (files w !! filename) as [f|] eqn:E.
      - rewrite (get_data_present _ _ _ _ _ _ f) by done.
        by apply get_cached_ok.
      - rewrite get_data_absent by done.
        destruct (can_pull filename w).
        + apply get_cached_ok; [done|].
          by apply store_ok_pulled_meta, store_ok_pulled.
        + by apply fetch_and_save_ok. }
    destruct H as [Hv Hs]. split; [|done].
    intros df Hr. rewrite Hr in Hv. exact Hv.
Qed.

(** ** Unreadable metadata *)

Lemma fs_agree_insert filename fs fs0 q f :
  fs_agree filename fs fs0 ->
  fs_agree filename (<[q := f]> fs) (<[q := f]> fs0).
Proof.
  intros [H1 H2]. split.
  - intros p Hp. rewrite !lookup_insert. case_decide; auto.
  - unfold last_checked_of in *. rewrite !lookup_insert. by case_decide.
Qed.

Lemma fs_agree_cached filename fs fs0 :
  fs_agree filename fs fs0 -> cached_frame fs filename = cached_frame fs0 filename.
Proof.
  intros [H1 _]. unfold cached_frame. by rewrite (H1 filename (meta_name_neq _)).
Qed.

Ltac open_agree H :=
  let Hh := fresh "Hh" in let Ho := fresh "Ho" in let Hc := fresh "Hc" in
  let Ht := fresh "Ht" in let Hl := fresh "Hl" in let Hf := fresh "Hf" in
  destruct H as (Hh & Ho & Hc & Ht & Hl & Hf).

Lemma agree_tick filename w w0 :
  agree filename w w0 -> agree filename (tick w) (tick w0).
Proof. intros H. open_agree H. unfold agree. simpl. by rewrite Ht. Qed.

Lemma agree_log_fetch filename c w w0 :
  agree filename w w0 -> agree filename (log_fetch c w) (log_fetch c w0).
Proof. intros H. open_agree H. unfold agree. simpl. by rewrite Hl. Qed.

Lemma agree_touched filename w w0 :
  agree filename w w0 -> agree filename (touched filename w) (touched filename w0).
Proof.
  intros H. open_agree H. unfold agree, touched. simpl.
  rewrite Hc, Ht. repeat (split; [done|]). by apply fs_agree_insert.
Qed.

Lemma agree_touched_pushed filename w w0 :
  agree filename w w0 ->
  agree filename (meta_pushed filename (touched filename w))
                 (meta_pushed filename (touched filename w0)).
Proof.
  intros H. open_agree H. unfold agree, meta_pushed, touched. simpl.
  rewrite !lookup_insert_eq, Ho, Hc, Ht.
  destruct (hub_online w0) eqn:Ho0; simpl; rewrite ?Hh;
    (repeat (split; [congruence|])); by apply fs_agree_insert.
Qed.

Lemma agree_saved filename df w w0 :
  agree filename w w0 -> agree filename (saved filename df w) (saved filename df w0).
Proof.
  intros H. open_agree H. unfold agree, saved. cbv zeta.
  rewrite Ho, Hc, Ht.
  destruct (hub_online w0) eqn:Ho0; simpl; rewrite ?Hh;
    (repeat (split; [congruence|])); by do 2 apply fs_agree_insert.
Qed.

Lemma agree_pulled filename name w w0 :
  agree filename w w0 -> agree filename (pulled name w) (pulled name w0).
Proof.
  intros H. pose proof H as H'. open_agree H. unfold pulled. rewrite Ho, Hh.
  destruct (hub_online w0) eqn:Ho0; [|done].
  destruct (hub w0 !! name); [|done].
  unfold agree. simpl. repeat (split; [congruence|]). by apply fs_agree_insert.
Qed.

Lemma agree_fetch_and_save filename loader sd kw w w0 :
  agree filename w w0 ->
  fst (_fetch_and_save filename loader (meta_name filename) sd kw w)
  = fst (_fetch_and_save filename loader (meta_name filename) sd kw w0) ∧
  agree filename
    (snd (_fetch_and_save filename loader (meta_name filename) sd kw w))
    (snd (_fetch_and_save filename loader (meta_name filename) sd kw w0)).
Proof.
  intros H. rewrite !_fetch_and_save_run. cbv zeta.
  pose proof (agree_log_fetch filename (sd, kw) _ _ H).
  destruct (loader sd kw) as [| |raw]; [by split | by split |].
  destruct (empty raw); [by split|].
  destruct (to_datetime_col raw); [|by split].
  split; [done|]. by apply agree_saved.
Qed.

Lemma agree_guarded_refresh filename loader sd kw df w w0 :
  agree filename w w0 ->
  let m := try_except (refresh filename loader sd kw df) (ret (PyDataFrame df)) in
  fst (m w) = fst (m w0) ∧ agree filename (snd (m w)) (snd (m w0)).
Proof.
  intros H m. unfold m, try_except. rewrite !refresh_run. cbv zeta.
  pose proof H as H'. open_agree H'. rewrite Hc, Ht.
  pose proof (agree_tick _ _ _ H) as H1.
  pose proof (agree_tick _ _ _ H1) as H2.
  destruct (backfill_due sd df) as [[|]|]; [| |by split].
  - destruct (agree_fetch_and_save filename loader sd kw _ _ H1) as [E1 E2].
    destruct (_fetch_and_save _ _ _ _ _ (tick w)) as [[v|] w'],
             (_fetch_and_save _ _ _ _ _ (tick w0)) as [[v0|] w0'];
      simpl in *; try done.
  - destruct (date_max df) as [mx|];
      [|split; [done | by apply agree_touched]].
    destruct (_ <? _); [|split; [done | by apply agree_touched]].
    destruct (_ <? _); [split; [done | by apply agree_touched]|].
    pose proof (agree_log_fetch filename
      (Some (strftime_ymd (mx + timedelta_days 1)), delete "start_date"%string kw)
      _ _ H2) as H3.
    destruct (loader _ _) as [| |raw]; [by split | by split |].
    destruct (empty raw); [split; [done | by apply agree_touched_pushed]|].
    destruct (to_datetime_col raw); [|by split].
    split; [done | by apply agree_saved].
Qed.

Lemma agree_get_cached filename loader ci sd kw w w0 :
  agree filename w w0 ->
  fst (get_cached filename loader ci sd kw w)
  = fst (get_cached filename loader ci sd kw w0) ∧
  agree filename (snd (get_cached filename loader ci sd kw w))
                 (snd (get_cached filename loader ci sd kw w0)).
Proof.
  intros H. pose proof H as H'. open_agree H'.
  pose proof (fs_agree_cached _ _ _ Hf) as Hdf.
  destruct (cached_frame (files w0) filename) as [|r0 df] eqn:E.
  - rewrite !get_cached_empty by congruence. by apply agree_fetch_and_save.
  - rewrite !get_cached_nonempty by congruence. cbv zeta.
    rewrite Hdf, E, Hc, Ht, (proj2 Hf).
    destruct (_ <? ci); [split; [done | by apply agree_tick]|].
    by apply agree_guarded_refresh, agree_tick.
Qed.

(** Directories that agree give the same answer, the same loader calls and
    directories that agree again. *)
Lemma agree_get_data filename loader ci sd kw w w0 :
  agree filename w w0 ->
  fst (get_data filename loader ci sd kw w)
  = fst (get_data filename loader ci sd kw w0) ∧
  agree filename (snd (get_data filename loader ci sd kw w))
                 (snd (get_data filename loader ci sd kw w0)).
Proof.
  intros H. pose proof H as H'. open_agree H'.
  pose proof (proj1 Hf filename (meta_name_neq _)) as Hfile.
  destruct (files w0 !! filename) as [f|] eqn:E.
  - rewrite !(get_data_present _ _ _ _ _ _ f) by congruence.
    by apply agree_get_cached.
  - rewrite !get_data_absent by congruence.
    unfold can_pull. rewrite Ho, Hh.
    destruct (hub_online w0); [|by apply agree_fetch_and_save].
    destruct (hub w0 !! filename); [|by apply agree_fetch_and_save].
    by apply agree_get_cached, agree_pulled, agree_pulled.
Qed.

(** C10.  When the metadata file exists but cannot be read as a
    [last_checked] timestamp (not JSON, no such key, not a timestamp),
    [_get_last_checked] returns [datetime.min], as it does when the file is
    missing; [get_data] then returns the same table and makes the same
    loader calls as with the file missing, and leaves the same files
    behind apart from the metadata file; and on a cached table with rows it
    runs the refresh, the cooldown counting as expired, for every cooldown
    no longer than the time elapsed since [datetime.min]. *)
Theorem unreadable_metadata filename w f :
  files w !! meta_name filename = Some f ->
  (∀ t, f ≠ FMeta (DateOk t)) ->
  let w0 := set_files (delete (meta_name filename)) w in
  _get_last_checked (meta_name filename) w = (Ret datetime_min, w) ∧
  fst (_get_last_checked (meta_name filename) w0) = Ret datetime_min ∧
  ∀ loader ci sd kw,
    let r := get_data filename loader ci sd kw w in
    let r0 := get_data filename loader ci sd kw w0 in
    fst r = fst r0 ∧
    fetch_log (snd r) = fetch_log (snd r0) ∧
    hub (snd r) = hub (snd r0) ∧
    (∀ p, p ≠ meta_name filename -> files (snd r) !! p = files (snd r0) !! p) ∧
    ∀ df, fst (_load_csv filename w) = Ret df -> df ≠ [] ->
          ci <= clock w (ticks w) - datetime_min ->
          r = try_except (refresh filename loader sd kw df)
                (ret (PyDataFrame df)) (tick w).
Proof.
  intros Hf Hbad w0.
  assert (Hlc : last_checked_of (files w) (meta_name filename) = datetime_min).
  { unfold last_checked_of. rewrite Hf.
    destruct f as [|[t|]| |]; try reflexivity. by destruct (Hbad t). }
  assert (Hlc0 : last_checked_of (files w0) (meta_name filename) = datetime_min).
  { unfold last_checked_of, w0. simpl. by rewrite lookup_delete_eq. }
  assert (Hag : agree filename w w0).
  { unfold agree, w0. simpl. repeat (split; [done|]). split.
    - intros p Hp. by rewrite lookup_delete_ne.
    - rewrite Hlc. unfold last_checked_of. by rewrite lookup_delete_eq. }
  split; [by rewrite _get_last_checked_run, Hlc|].
  split; [by rewrite _get_last_checked_run, Hlc0|].
  intros loader ci sd kw r r0.
  destruct (agree_get_data filename loader ci sd kw w w0 Hag) as [E1 E2].
  destruct E2 as (Eh & _ & _ & _ & El & Efs & _).
  split; [done|]. split; [done|]. split; [done|]. split; [exact Efs|].
  intros df Hdf Hne Hci.
  apply (get_data_expired _ _ _ _ _ _ df datetime_min); try done.
  by rewrite _get_last_checked_run, Hlc.
Qed.

(** ** Failures *)

(** The guard of lines 56 and 106 to 108 turns any exception of the
    refresh into the cached table. *)
Lemma guarded_refresh_returns filename loader sd kw df w :
  ∃ v w', try_except (refresh filename loader sd kw df)
            (ret (PyDataFrame df)) w = (Ret v, w').
Proof.
  unfold try_except.
  destruct (refresh filename loader sd kw df w) as [[v|] w']; eauto.
Qed.

Lemma fetch_and_save_returns filename loader sd kw w :
  ∃ v w', _fetch_and_save filename loader (meta_name filename) sd kw w = (Ret v, w').
Proof.
  rewrite _fetch_and_save_run. cbv zeta.
  destruct (loader sd kw) as [| |raw]; eauto.
  destruct (empty raw); eauto.
  destruct (to_datetime_col raw); eauto.
Qed.

Lemma get_cached_returns filename loader ci sd kw w :
  ∃ v w', get_cached filename loader ci sd kw w = (Ret v, w').
Proof.
  destruct (cached_frame (files w) filename) as [|r0 df] eqn:E.
  - rewrite get_cached_empty by done. apply fetch_and_save_returns.
  - rewrite get_cached_nonempty by congruence. cbv zeta.
    destruct (_ <? ci); eauto using guarded_refresh_returns.
Qed.

(** No exception of the loader, of a parser or of the network reaches the
    caller of [get_data]. *)
Lemma get_data_never_raises filename loader ci sd kw w :
  ∃ v w', get_data filename loader ci sd kw w = (Ret v, w').
Proof.
  destruct (files w !! filename) as [f|] eqn:E.
  - rewrite (get_data_present _ _ _ _ _ _ f) by done. apply get_cached_returns.
  - rewrite get_data_absent by done.
    destruct (can_pull filename w);
      [apply get_cached_returns | apply fetch_and_save_returns].
Qed.

(** With a loader that never returns [None], the caller gets a table. *)
Lemma fetch_and_save_returns_frame filename loader sd kw w :
  (∀ s k, loader s k ≠ LoaderNone) ->
  ∃ df w', _fetch_and_save filename loader (meta_name filename) sd kw w
           = (Ret (PyDataFrame df), w').
Proof.
  intros Hld. rewrite _fetch_and_save_run. cbv zeta.
  destruct (loader sd kw) as [| |raw] eqn:E; eauto.
  - by destruct (Hld sd kw).
  - destruct (empty raw); eauto. destruct (to_datetime_col raw); eauto.
Qed.

Lemma guarded_refresh_returns_frame filename loader sd kw df w :
  (∀ s k, loader s k ≠ LoaderNone) ->
  ∃ df' w', try_except (refresh filename loader sd kw df)
              (ret (PyDataFrame df)) w = (Ret (PyDataFrame df'), w').
Proof.
  intros Hld. unfold try_except. rewrite refresh_run. cbv zeta.
  destruct (backfill_due sd df) as [[|]|]; [| |unfold ret; eauto].
  - destruct (fetch_and_save_returns_frame filename loader sd kw (tick w) Hld)
      as (df' & w' & ->). eauto.
  - destruct (date_max df) as [mx|]; [|eauto].
    destruct (_ <? _); [|eauto]. destruct (_ <? _); [eauto|].
    destruct (loader _ _) as [| |raw]; [unfold ret; eauto .. |].
    destruct (empty raw); [eauto|].
    destruct (to_datetime_col raw); unfold ret; eauto.
Qed.

Lemma get_data_returns_frame filename loader ci sd kw w :
  (∀ s k, loader s k ≠ LoaderNone) ->
  ∃ df w', get_data filename loader ci sd kw w = (Ret (PyDataFrame df), w').
Proof.
  intros Hld.
  assert (Hc : ∀ w1, ∃ df w',
    get_cached filename loader ci sd kw w1 = (Ret (PyDataFrame df), w')).
  { intros w1. destruct (cached_frame (files w1) filename) as [|r0 df] eqn:E.
    - rewrite get_cached_empty by done. by apply fetch_and_save_returns_frame.
    - rewrite get_cached_nonempty by congruence. cbv zeta.
      destruct (_ <? ci); [eauto|]. by apply guarded_refresh_returns_frame. }
  destruct (files w !! filename) as [f|] eqn:E.
  - rewrite (get_data_present _ _ _ _ _ _ f) by done. apply Hc.
  - rewrite get_data_absent by done.
    destruct (can_pull filename w);
      [apply Hc | by apply fetch_and_save_returns_frame].
Qed.

(** When the refresh raises, the caller gets the cached table and no file
    has been written, locally or remotely. *)
Lemma refresh_failure_keeps_cache filename loader ci sd kw w df lc :
  fst (_load_csv filename w) = Ret df -> df ≠ [] ->
  fst (_get_last_checked (meta_name filename) w) = Ret lc ->
  ci <= clock w (ticks w) - lc ->
  fst (refresh filename loader sd kw df (tick w)) = Raise ->
  let r := get_data filename loader ci sd kw w in
  fst r = Ret (PyDataFrame df) ∧ files (snd r) = files w ∧ hub (snd r) = hub w.
Proof.
  intros Hdf Hne Hlc Hexp Hraise r. unfold r.
  rewrite (get_data_expired _ _ _ _ _ _ df lc) by done.
  unfold try_except. revert Hraise. rewrite refresh_run. cbv zeta.
  destruct (backfill_due sd df) as [[|]|]; [| |done].
  - destruct (fetch_and_save_returns filename loader sd kw (tick (tick w)))
      as (v & w' & ->). done.
  - destruct (date_max df) as [mx|]; [|done].
    destruct (_ <? _); [|done]. destruct (_ <? _); [done|].
    destruct (loader _ _) as [| |raw]; [done | done |].
    destruct (empty raw); [done|].
    destruct (to_datetime_col raw); done.
Qed.

End Properties.

Ltac by_computation :=
  vm_compute; first [reflexivity | discriminate | congruence | lia | done].

Lemma cooldown_short_circuit_witness :
  let r := get_data fx loader_news (day 1) None kw w_fresh in
  fst r = Ret (PyDataFrame cached_table) ∧
  fetch_log (snd r) = [] ∧
  files (snd r) = files w_fresh.
Proof.
  pose proof (cooldown_short_circuit fx loader_news (day 1) None kw w_fresh
                cached_table lc_fresh) as H.
  cbv zeta in H.
  destruct H as (H1 & H2 & H3 & _); [by_computation .. |].
  cbv zeta. split; [exact H1|]. split; [exact H2 | exact H3].
Defined.

Lemma incremental_merge_witness :
  ∃ w',
    get_data fx loader_news (day 1) None kw w_stale
    = (Ret (PyDataFrame [row 90 1; row 91 2; row 92 30; row 93 4]), w') ∧
    files w' !! fx = Some (FCsv [raw 90 1; raw 91 2; raw 92 30; raw 93 4]).
Proof.
  destruct (incremental_merge fx loader_news (day 1) None kw w_stale
              cached_table lc_stale (day 92) [raw 92 30; raw 93 4]
              [row 92 30; row 93 4])
    as (m & w' & Hrun & Hm & _ & _ & _ & Hfile); [by_computation .. |].
  exists w'. rewrite Hm in Hrun, Hfile. split; [exact Hrun | exact Hfile].
Defined.

Lemma backfill_full_fetch_witness :
  let r := get_data fx loader_news (day 1) early_start kw w_stale in
  let r' := get_data fx loader_news (day 1) early_start kw w_fresh in
  (fetch_log (snd r) = [(early_start, kw)] ∧
   fst r = Ret (PyDataFrame [row 92 30; row 93 4]) ∧
   files (snd r) !! fx = Some (FCsv [raw 92 30; raw 93 4])) ∧
  (fst r' = Ret (PyDataFrame cached_table) ∧ fetch_log (snd r') = []).
Proof.
  cbv zeta. split.
  - pose proof (backfill_full_fetch fx loader_news (day 1) (day 50) kw w_stale
                  cached_table lc_stale (day 90)) as H.
    cbv zeta in H. destruct H as [H _]; [by_computation .. |].
    destruct H as (_ & Hlog & Hrows); [by_computation|].
    destruct (Hrows [raw 92 30; raw 93 4] [row 92 30; row 93 4])
      as [H1 H2]; [by_computation .. |].
    split; [exact Hlog|]. split; [exact H1 | exact H2].
  - pose proof (backfill_full_fetch fx loader_news (day 1) (day 50) kw w_fresh
                  cached_table lc_fresh (day 90)) as H.
    cbv zeta in H. destruct H as [_ H]; [by_computation .. |].
    destruct H as (H1 & H2 & _); [by_computation|].
    split; [exact H1 | exact H2].
Defined.

Lemma forward_fill_witness :
  fetch_log (snd (get_data fx loader_news (day 1) None kw w_stale))
  = [(Some (DateOk (day 93)), kw)] ∧
  (fst (get_data fx loader_news (day 1) None kw w_yesterday)
   = Ret (PyDataFrame [row 98 1; row 99 2]) ∧
   fetch_log (snd (get_data fx loader_news (day 1) None kw w_yesterday)) = []).
Proof.
  split.
  - pose proof (forward_fill fx loader_news (day 1) None kw w_stale
                  cached_table lc_stale (day 92)) as H.
    cbv zeta in H. destruct H as [H _]; [by_computation .. |].
    apply H. by_computation.
  - pose proof (forward_fill fx loader_news (day 1) None kw w_yesterday
                  [row 98 1; row 99 2] lc_stale (day 99)) as H.
    cbv zeta in H. destruct H as [_ H]; [by_computation .. |].
    destruct H as (H1 & H2 & _); [by_computation|].
    split; [exact H1 | exact H2].
Defined.

(** C6, the code on a cache that ends yesterday.  The latest cached date
    (day 99) is before today (day 100), the cooldown has expired and no
    backfill is asked for; line 70 compares the latest date with the day
    before today, finds it not older, and the loader is not called: the
    cached table is returned as it is. *)
Theorem cache_ending_yesterday_is_not_refreshed :
  let r := get_data fx loader_news (day 1) None kw w_yesterday in
  fst (_load_csv fx w_yesterday) = Ret [row 98 1; row 99 2] ∧
  date_max [row 98 1; row 99 2] = Some (day 99) ∧
  day 99 < midnight (clock_at_10 1) ∧
  day 1 <= clock_at_10 0 - lc_stale ∧
  fst r = Ret (PyDataFrame [row 98 1; row 99 2]) ∧
  fetch_log (snd r) = [].
Proof. cbv zeta. repeat split; by_computation. Qed.

Lemma last_checked_updates_witness :
  (let r := get_data fx loader_empty (day 1) None kw w_stale in
   files (snd r) !! meta_name fx = Some (FMeta (DateOk (clock_at_10 3))) ∧
   fst r = Ret (PyDataFrame cached_table) ∧
   files (snd r) !! fx = Some (FCsv cached_csv)) ∧
  files (snd (get_data fx loader_news (day 1) None kw w_stale)) !! meta_name fx
  = Some (FMeta (DateOk (clock_at_10 3))) ∧
  files (snd (_fetch_and_save fx loader_news (meta_name fx) None kw w_absent))
    !! meta_name fx = Some (FMeta (DateOk (clock_at_10 0))) ∧
  files (snd (_fetch_and_save fx loader_empty (meta_name fx) None kw w_absent))
  = files w_absent.
Proof.
  split; [|split; [|split]].
  - destruct (last_checked_updates fx loader_empty None kw) as [H _].
    pose proof (H (day 1) w_stale cached_table lc_stale (day 92) [] []) as H'.
    cbv zeta in H'. destruct H' as [H1 H2]; [by_computation .. |].
    destruct (H2 eq_refl) as [H3 H4].
    cbv zeta. split; [exact H1|]. split; [exact H3|]. rewrite H4. by_computation.
  - destruct (last_checked_updates fx loader_news None kw) as [H _].
    pose proof (H (day 1) w_stale cached_table lc_stale (day 92)
                  [raw 92 30; raw 93 4] [row 92 30; row 93 4]) as H'.
    cbv zeta in H'. destruct H' as [H1 _]; [by_computation .. |]. exact H1.
  - destruct (last_checked_updates fx loader_news None kw) as [_ H].
    destruct (H w_absent) as [H1 _].
    apply (H1 [raw 92 30; raw 93 4] [row 92 30; row 93 4]); by_computation.
  - destruct (last_checked_updates fx loader_empty None kw) as [_ H].
    destruct (H w_absent) as [_ H2].
    apply H2. left. reflexivity.
Defined.

(** C7 as stated fails: a backfill makes a Full Fetch attempt, the loader
    returns no rows, and [last_checked] stays what it was. *)
Lemma last_checked_updates_counterexample :
  let r := get_data fx loader_empty (day 1) early_start kw w_stale in
  fetch_log (snd r) = [(early_start, kw)] ∧
  files w_stale !! meta_name fx = Some (FMeta (DateOk lc_stale)) ∧
  files (snd r) !! meta_name fx = Some (FMeta (DateOk lc_stale)).
Proof. cbv zeta. repeat split; by_computation. Qed.

Lemma archive_recovery_witness :
  (let r := get_data fx loader_news (day 1) None kw
              (w_archived (Some (FMeta (DateOk lc_fresh)))) in
   fst r = Ret (PyDataFrame cached_table) ∧ fetch_log (snd r) = []) ∧
  (let r := get_data fx loader_news (day 1) None kw w_leftover in
   fst r = Ret (PyDataFrame cached_table) ∧ fetch_log (snd r) = []).
Proof.
  split.
  - pose proof (archive_recovery fx loader_news (day 1) None kw
                  (w_archived (Some (FMeta (DateOk lc_fresh))))
                  cached_csv cached_table) as H.
    cbv zeta in H.
    destruct H as (_ & _ & H & _); [by_computation .. |].
    apply H. by_computation.
  - pose proof (archive_recovery fx loader_news (day 1) None kw w_leftover
                  cached_csv cached_table) as H.
    cbv zeta in H.
    destruct H as (_ & _ & H & _); [by_computation .. |].
    apply H. by_computation.
Defined.

(** C8 as stated fails: the dataset is recovered from the archive, its
    metadata is not there, so the cooldown counts as expired and the loader
    is called; the result is the recovered table merged with the news. *)
Lemma archive_recovery_counterexample :
  let w := w_archived None in
  let r := get_data fx loader_news (day 1) None kw w in
  files w !! fx = None ∧
  fst (_pull_from_hub fx w) = Ret true ∧
  fst (_load_csv fx (snd (_pull_from_hub fx w))) = Ret cached_table ∧
  fetch_log (snd r) = [(Some (DateOk (day 93)), kw)] ∧
  fst r = Ret (PyDataFrame [row 90 1; row 91 2; row 92 30; row 93 4]).
Proof. cbv zeta. repeat split; by_computation. Qed.

Lemma loader_news_ok : loader_ok loader_news.
Proof.
  intros s k rows df [= <-] Hparse. vm_compute in Hparse.
  injection Hparse as <-. split.
  - apply (bool_decide_unpack _). vm_compute. exact I.
  - repeat constructor.
Qed.

Lemma well_formed_preserved_witness :
  let r := get_data fx loader_news (day 1) None kw w_stale in
  (∀ df, fst r = Ret (PyDataFrame df) -> well_formed df) ∧
  store_ok fx (snd r).
Proof.
  destruct (well_formed_preserved fx loader_news None kw) as (_ & _ & H).
  apply (H (day 1) w_stale).
  - exact loader_news_ok.
  - split; vm_compute cached_frame; (split;
      [apply (bool_decide_unpack _); vm_compute; exact I | repeat constructor]).
Defined.

(** C9 as stated fails: a Full Fetch returns and saves the loader's rows
    as they come, here out of order and with day 95 twice. *)
Lemma well_formed_preserved_counterexample :
  let r := get_data fx loader_unsorted (day 1) None kw w_absent in
  let df := [row 95 1; row 94 2; row 95 3] in
  fst r = Ret (PyDataFrame df) ∧
  fst (_load_csv fx (snd r)) = Ret df ∧
  ¬ NoDup (date <$> df) ∧
  ¬ ascending df.
Proof.
  cbv zeta. split; [by_computation|]. split; [by_computation|]. split.
  - intros H. apply (bool_decide_pack _) in H. vm_compute in H. exact H.
  - intros H. inversion_clear H as [|? ? _ Hall].
    inversion_clear Hall as [|? ? Hle _]. vm_compute in Hle. discriminate.
Qed.

Lemma unreadable_metadata_witness :
  _get_last_checked (meta_name fx) w_garbled = (Ret datetime_min, w_garbled) ∧
  fst (get_data fx loader_news (day 1) None kw w_garbled)
  = fst (get_data fx loader_news (day 1) None kw
           (set_files (delete (meta_name fx)) w_garbled)) ∧
  fetch_log (snd (get_data fx loader_news (day 1) None kw w_garbled))
  = [(Some (DateOk (day 93)), kw)].
Proof.
  pose proof (unreadable_metadata fx w_garbled FGarbage) as H.
  cbv zeta in H.
  destruct H as (H1 & _ & H); [by_computation | intros t; discriminate |].
  destruct (H loader_news (day 1) None kw) as (H2 & _ & _ & _ & H3).
  split; [exact H1|]. split; [exact H2|].
  rewrite (H3 cached_table); by_computation.
Defined.

(** C1, the code at the failing input.  With no local file, no archive to
    recover from and a loader that returns [None], [get_data] hands [None]
    to its caller instead of a table. *)
Theorem full_fetch_returns_None :
  fst (get_data fx loader_none (day 1) None kw w_absent) = Ret PyNone.
Proof. by_computation. Qed.

(** C3, the code at the failing input.  The cache holds rows, the cooldown
    has expired and a backfill is due; the loader raises during the Full
    Fetch, and [get_data] returns an empty table instead of the cached one.
    Nothing is written: [last_checked] stays what it was. *)
Theorem backfill_failure_returns_empty :
  let r := get_data fx loader_fails (day 1) early_start kw w_stale in
  fst (_load_csv fx w_stale) = Ret cached_table ∧
  fst r = Ret (PyDataFrame []) ∧
  files (snd r) = files w_stale.
Proof. cbv zeta. repeat split; by_computation. Qed.

(** * Further properties of [get_data] *)

Section MoreProperties.

Context {V : Type}.

Implicit Types (w : @World V) (df dfn : @DataFrame V) (loader : @Loader V).
Implicit Types (fs : gmap string (@File V)) (f : @File V).

(** ** What a call leaves alone *)

Lemma frame_refl filename w : frame filename w w.
Proof. by repeat split. Qed.

Lemma frame_trans filename w w1 w2 :
  frame filename w w1 -> frame filename w1 w2 -> frame filename w w2.
Proof.
  intros (A1 & A2 & A3 & A4) (B1 & B2 & B3 & B4). split; [|split; [|split]].
  - intros p H1 H2. destruct (A1 p H1 H2) as [a1 a2].
    destruct (B1 p H1 H2) as [b1 b2]. split; congruence.
  - intros Hoff. rewrite <- (A2 Hoff). apply B2. congruence.
  - congruence.
  - congruence.
Qed.

Lemma frame_tick filename w : frame filename w (tick w).
Proof. by repeat split. Qed.

Lemma frame_log_fetch filename c w : frame filename w (log_fetch c w).
Proof. by repeat split. Qed.

Lemma frame_touched filename w : frame filename w (touched filename w).
Proof.
  unfold frame, touched. simpl. split; [|done].
  intros p _ Hp. by rewrite lookup_insert_ne.
Qed.

Lemma frame_meta_pushed filename w : frame filename w (meta_pushed filename w).
Proof.
  unfold frame, meta_pushed. destruct (hub_online w) eqn:E; [|by rewrite E].
  destruct (files w !! meta_name filename); [|by rewrite E]. simpl.
  rewrite E. split; [|done]. intros p _ Hp. by rewrite lookup_insert_ne.
Qed.

Lemma frame_saved filename df w : frame filename w (saved filename df w).
Proof.
  unfold frame, saved. cbv zeta.
  destruct (hub_online w) eqn:E; simpl; rewrite ?E; (split; [|done]);
    intros p Hp Hm; rewrite ?lookup_insert_ne by done; done.
Qed.

Lemma frame_pulled filename name w :
  name = filename ∨ name = meta_name filename ->
  frame filename w (pulled name w).
Proof.
  intros Hname. unfold frame, pulled.
  destruct (hub_online w) eqn:E; [|by rewrite E].
  destruct (hub w !! name); [|by rewrite E]. simpl. rewrite E.
  split; [|done]. intros p Hp Hm.
  rewrite lookup_insert_ne; [done|]. destruct Hname; congruence.
Qed.

Lemma frame_fetch_and_save filename loader sd kw w :
  frame filename w
    (snd (_fetch_and_save filename loader (meta_name filename) sd kw w)).
Proof.
  rewrite _fetch_and_save_run. cbv zeta.
  destruct (loader sd kw) as [| |raw]; try apply frame_log_fetch.
  destruct (empty raw); [apply frame_log_fetch|].
  destruct (to_datetime_col raw); [|apply frame_log_fetch].
  eapply frame_trans; [apply frame_log_fetch | apply frame_saved].
Qed.

Lemma frame_guarded_refresh filename loader sd kw df w :
  frame filename w
    (snd (try_except (refresh filename loader sd kw df)
            (ret (PyDataFrame df)) w)).
Proof.
  unfold try_except. rewrite refresh_run. cbv zeta.
  destruct (backfill_due sd df) as [[|]|]; [| |apply frame_tick].
  - pose proof (frame_fetch_and_save filename loader sd kw (tick w)) as H.
    destruct (_fetch_and_save _ _ _ _ _ _) as [[v|] w'];
      (eapply frame_trans; [apply frame_tick | exact H]).
  - destruct (date_max df) as [mx|];
      [|eapply frame_trans; [apply frame_tick | apply frame_touched]].
    destruct (_ <? _);
      [|eapply frame_trans; [apply frame_tick | apply frame_touched]].
    destruct (_ <? _).
    { eapply frame_trans; [apply frame_tick|].
      eapply frame_trans; [apply frame_tick | apply frame_touched]. }
    assert (H2 : frame filename w (tick (tick w))).
    { eapply frame_trans; apply frame_tick. }
    destruct (loader _ _) as [| |raw];
      [eapply frame_trans; [exact H2 | apply frame_log_fetch] ..|].
    destruct (empty raw).
    + eapply frame_trans; [exact H2|].
      eapply frame_trans; [apply frame_log_fetch|].
      eapply frame_trans; [apply frame_touched | apply frame_meta_pushed].
    + destruct (to_datetime_col raw);
        (eapply frame_trans; [exact H2|]);
        [eapply frame_trans; [apply frame_log_fetch | apply frame_saved]
        | apply frame_log_fetch].
Qed.

Lemma frame_get_cached filename loader ci sd kw w :
  frame filename w (snd (get_cached filename loader ci sd kw w)).
Proof.
  destruct (cached_frame (files w) filename) as [|r0 df] eqn:E.
  - rewrite get_cached_empty by done. apply frame_fetch_and_save.
  - rewrite get_cached_nonempty by congruence. cbv zeta.
    destruct (_ <? ci); [apply frame_tick|].
    eapply frame_trans; [apply frame_tick | apply frame_guarded_refresh].
Qed.

(** X1.  A call for one dataset leaves every other file alone, locally and
    in the archive; with the network down it leaves the whole archive as it
    was. *)
Theorem get_data_frame filename loader ci sd kw w :
  let w' := snd (get_data filename loader ci sd kw w) in
  (∀ p, p ≠ filename -> p ≠ meta_name filename ->
        files w' !! p = files w !! p ∧ hub w' !! p = hub w !! p) ∧
  (hub_online w = false -> hub w' = hub w).
Proof.
  assert (H : frame filename w (snd (get_data filename loader ci sd kw w))).
  { destruct (files w !! filename) as [f|] eqn:E.
    - rewrite (get_data_present _ _ _ _ _ _ f) by done. apply frame_get_cached.
    - rewrite get_data_absent by done.
      destruct (can_pull filename w); [|apply frame_fetch_and_save].
      eapply frame_trans; [apply frame_pulled; by left|].
      eapply frame_trans; [apply frame_pulled; by right|].
      apply frame_get_cached. }
  destruct H as (H1 & H2 & _). by split.
Qed.

(** ** How often the loader is called *)

Lemma one_fetch_fetch_and_save filename loader sd kw w :
  one_fetch_at_most w
    (snd (_fetch_and_save filename loader (meta_name filename) sd kw w)).
Proof.
  right. exists (sd, kw). apply fetch_and_save_log.
Qed.

Lemma one_fetch_guarded_refresh filename loader sd kw df w :
  one_fetch_at_most w
    (snd (try_except (refresh filename loader sd kw df)
            (ret (PyDataFrame df)) w)).
Proof.
  unfold try_except. rewrite refresh_run. cbv zeta.
  destruct (backfill_due sd df) as [[|]|]; [| |by left].
  - pose proof (one_fetch_fetch_and_save filename loader sd kw (tick w)) as H.
    destruct (_fetch_and_save _ _ _ _ _ _) as [[v|] w']; exact H.
  - destruct (date_max df) as [mx|]; [|by left].
    destruct (_ <? _); [|by left]. destruct (_ <? _); [by left|].
    right. eexists.
    destruct (loader _ _) as [| |raw]; [reflexivity ..|].
    destruct (empty raw).
    + unfold meta_pushed. simpl. destruct (hub_online w); [|reflexivity].
      destruct (_ !! _); reflexivity.
    + destruct (to_datetime_col raw); [|reflexivity].
      unfold saved. cbv zeta. simpl. destruct (hub_online w); reflexivity.
Qed.

Lemma one_fetch_get_cached filename loader ci sd kw w :
  one_fetch_at_most w (snd (get_cached filename loader ci sd kw w)).
Proof.
  destruct (cached_frame (files w) filename) as [|r0 df] eqn:E.
  - rewrite get_cached_empty by done. apply one_fetch_fetch_and_save.
  - rewrite get_cached_nonempty by congruence. cbv zeta.
    rewrite E. destruct (_ <? ci); [by left|].
    exact (one_fetch_guarded_refresh filename loader sd kw (r0 :: df) (tick w)).
Qed.

(** X2.  One call of [get_data] calls the loader at most once. *)
Theorem get_data_one_fetch_at_most filename loader ci sd kw w :
  let w' := snd (get_data filename loader ci sd kw w) in
  fetch_log w' = fetch_log w ∨ ∃ c, fetch_log w' = c :: fetch_log w.
Proof.
  cbv zeta. destruct (files w !! filename) as [f|] eqn:E.
  - rewrite (get_data_present _ _ _ _ _ _ f) by done. apply one_fetch_get_cached.
  - rewrite get_data_absent by done.
    destruct (can_pull filename w); [|apply one_fetch_fetch_and_save].
    pose proof (one_fetch_get_cached filename loader ci sd kw
                  (pulled (meta_name filename) (pulled filename w))) as H.
    destruct (pulled_clock (meta_name filename) (pulled filename w))
      as (_ & _ & E1 & _).
    destruct (pulled_clock filename w) as (_ & _ & E2 & _).
    unfold one_fetch_at_most in H. by rewrite E1, E2 in H.
Qed.

(** ** Recovery after a save *)

(** X5.  A dataset saved while the network is up survives the loss of the
    local directory: the next call pulls the published file and its
    [last_checked] back from the archive and, within the cooldown, returns
    the table that file loads to, without calling the loader.  The table
    is the one read back from the published text, which is all the
    statement says of it. *)
Theorem saved_then_lost_is_recovered filename df dfr w loader ci sd kw :
  hub_online w = true ->
  to_datetime_col (to_csv df) = Some dfr -> dfr ≠ [] ->
  clock w (S (ticks w)) - clock w (ticks w) < ci ->
  let w1 := snd (_save_and_push filename df filename (meta_name filename) w) in
  let w2 := set_files (λ _, ∅) w1 in
  let r := get_data filename loader ci sd kw w2 in
  fst r = Ret (PyDataFrame dfr) ∧
  fetch_log (snd r) = fetch_log w ∧
  fst (_get_last_checked (meta_name filename) (snd r)) = Ret (clock w (ticks w)) ∧
  files (snd r) !! filename = Some (FCsv (to_csv df)).
Proof.
  intros Hon Hrd Hne Hc w1 w2 r.
  assert (Hw2 : w2 = set_files (λ _, ∅) (saved filename df w)).
  { unfold w2, w1. by rewrite _save_and_push_run. }
  assert (Hfs : files w2 = ∅) by by rewrite Hw2.
  assert (Hon2 : hub_online w2 = true).
  { rewrite Hw2. unfold saved. cbv zeta. by rewrite Hon. }
  assert (Hd : hub w2 !! filename = Some (FCsv (to_csv df))).
  { rewrite Hw2. unfold saved. cbv zeta. rewrite Hon. simpl.
    rewrite lookup_insert_ne by (symmetry; apply meta_name_neq).
    apply lookup_insert_eq. }
  assert (Hm : hub w2 !! meta_name filename
               = Some (FMeta (DateOk (clock w (ticks w))))).
  { rewrite Hw2. unfold saved. cbv zeta. rewrite Hon. simpl.
    apply lookup_insert_eq. }
  assert (Hcl : clock w2 (ticks w2) = clock w (S (ticks w))).
  { rewrite Hw2. unfold saved. cbv zeta. by rewrite Hon. }
  assert (Hlog : fetch_log w2 = fetch_log w).
  { rewrite Hw2. unfold saved. cbv zeta. by rewrite Hon. }
  clearbody w2. clear w1 Hw2.
  set (fs := <[meta_name filename := FMeta (DateOk (clock w (ticks w)))]>
               (<[filename := FCsv (to_csv df)]> (files w2))).
  assert (Hp : pulled (meta_name filename) (pulled filename w2)
               = set_files (λ _, fs) w2).
  { unfold pulled at 2. rewrite Hon2, Hd.
    unfold pulled. cbn [hub_online hub set_files]. by rewrite Hon2, Hm. }
  assert (Hf : fs !! filename = Some (FCsv (to_csv df))).
  { unfold fs. rewrite lookup_insert_ne by (symmetry; apply meta_name_neq).
    apply lookup_insert_eq. }
  assert (Hcf : cached_frame fs filename = dfr).
  { unfold cached_frame. by rewrite Hf, Hrd. }
  assert (Hlc : last_checked_of fs (meta_name filename) = clock w (ticks w)).
  { unfold last_checked_of, fs. by rewrite lookup_insert_eq. }
  assert (Hr : r = (Ret (PyDataFrame dfr), tick (set_files (λ _, fs) w2))).
  { unfold r. rewrite get_data_absent by (by rewrite Hfs).
    unfold can_pull. rewrite Hon2, Hd, Hp.
    rewrite get_cached_nonempty by (cbn [files set_files]; congruence).
    cbv zeta. cbn [files clock ticks set_files]. rewrite Hcf, Hlc, Hcl.
    destruct (Z.ltb_spec (clock w (S (ticks w)) - clock w (ticks w)) ci);
      [reflexivity | lia]. }
  rewrite Hr. cbn [fst snd]. split; [done|]. split; [exact Hlog|].
  split; [|exact Hf].
  rewrite _get_last_checked_run. cbn [fst files tick set_files]. by rewrite Hlc.
Qed.

(** ** Caches that are never refreshed *)

Lemma date_max_None df : date_max df = None -> date_min df = None.
Proof.
  induction df as [|r df IH]; [done|]. simpl.
  destruct (date r) as [d|]; simpl.
  - by destruct (date_max df).
  - exact IH.
Qed.

Lemma get_cached_undated filename loader ci sd kw w df :
  cached_frame (files w) filename = df -> df ≠ [] ->
  date_max df = None ->
  let r := get_cached filename loader ci sd kw w in
  fst r = Ret (PyDataFrame df) ∧ fetch_log (snd r) = fetch_log w ∧
  files (snd r) !! filename = files w !! filename.
Proof.
  intros Hdf Hne Hmax r. unfold r.
  rewrite get_cached_nonempty by congruence. cbv zeta. rewrite Hdf.
  destruct (_ <? ci); [done|].
  unfold try_except. rewrite refresh_run. cbv zeta.
  assert (Hbf : backfill_due sd df = Some false ∨ backfill_due sd df = None).
  { destruct sd as [[t|]|]; simpl; [left | by right | by left].
    by rewrite (date_max_None df Hmax). }
  destruct Hbf as [-> | ->]; [rewrite Hmax|]; cbn [fst snd]; [|done].
  split; [done|]. split; [done|]. unfold touched. simpl.
  apply lookup_insert_ne. symmetry. apply meta_name_neq.
Qed.

(** X6.  A cached table with rows but without a single date, such as a
    list of tickers, is never refreshed: [get_data] returns it and does not
    call the loader, whatever the cooldown and the requested start. *)
Theorem undated_cache_never_refreshed filename loader ci sd kw w df :
  fst (_load_csv filename w) = Ret df -> df ≠ [] ->
  date_max df = None ->
  let r := get_data filename loader ci sd kw w in
  fst r = Ret (PyDataFrame df) ∧ fetch_log (snd r) = fetch_log w ∧
  files (snd r) !! filename = files w !! filename.
Proof.
  intros Hdf Hne Hmax r. apply load_eq in Hdf.
  destruct (cached_frame_present (files w) filename) as [f Hf]; [congruence|].
  unfold r. rewrite (get_data_present _ _ _ _ _ _ f) by done.
  by apply get_cached_undated.
Qed.

(** X7.  A requested start that does not parse as a date makes every
    refresh fail before the loader is asked: past the cooldown [get_data]
    returns the cached table, calls no loader and writes nothing, so that
    the cooldown stays expired. *)
Theorem bad_start_date_blocks_refresh filename loader ci kw w df lc :
  fst (_load_csv filename w) = Ret df -> df ≠ [] ->
  fst (_get_last_checked (meta_name filename) w) = Ret lc ->
  ci <= clock w (ticks w) - lc ->
  let r := get_data filename loader ci (Some DateBad) kw w in
  fst r = Ret (PyDataFrame df) ∧ fetch_log (snd r) = fetch_log w ∧
  files (snd r) = files w ∧ hub (snd r) = hub w.
Proof.
  intros Hdf Hne Hlc Hexp r. unfold r.
  rewrite (get_data_expired _ _ _ _ _ _ df lc) by done.
  unfold try_except. rewrite refresh_run. done.
Qed.

(** ** A file that is there but holds no table *)

(** X8.  When the local file exists but yields no rows (it is not a CSV
    table, its dates do not parse, or it is empty), [get_data] is a Full
    Fetch on the world as it is: the archive is not asked for its copy, and
    when the loader brings no rows either the result is empty and the file
    stays as it was. *)
Theorem unreadable_file_is_refetched filename loader ci sd kw w f :
  files w !! filename = Some f ->
  fst (_load_csv filename w) = Ret [] ->
  let r := get_data filename loader ci sd kw w in
  r = _fetch_and_save filename loader (meta_name filename) sd kw w ∧
  (loader sd kw = LoaderFrame [] ∨ loader sd kw = LoaderRaises ->
   fst r = Ret (PyDataFrame []) ∧ files (snd r) = files w ∧ hub (snd r) = hub w).
Proof.
  intros Hf Hdf r. apply load_eq in Hdf.
  assert (Hr : r = _fetch_and_save filename loader (meta_name filename) sd kw w).
  { unfold r. rewrite (get_data_present _ _ _ _ _ _ f) by done.
    by apply get_cached_empty. }
  split; [exact Hr|]. rewrite Hr, _fetch_and_save_run. cbv zeta.
  intros [-> | ->]; done.
Qed.

(** ** Failures of an incremental refresh *)

(** X9.  On the incremental path, a loader that raises, returns [None] or
    returns rows whose dates do not parse leaves everything as it was: the
    cached table is returned, no file is written locally or remotely, and
    [last_checked] is not moved.  The one loader call is the only trace. *)
Theorem incremental_failure_keeps_cache filename loader ci sd kw w df lc mx :
  fst (_load_csv filename w) = Ret df -> df ≠ [] ->
  fst (_get_last_checked (meta_name filename) w) = Ret lc ->
  ci <= clock w (ticks w) - lc ->
  backfill_due sd df = Some false ->
  date_max df = Some mx ->
  mx < midnight (clock w (S (ticks w))) - timedelta_days 1 ->
  clock w (S (ticks w)) <= clock w (S (S (ticks w))) ->
  let start := Some (strftime_ymd (mx + timedelta_days 1)) in
  let kw' := delete "start_date"%string kw in
  (loader start kw' = LoaderRaises ∨ loader start kw' = LoaderNone ∨
   ∃ raw, loader start kw' = LoaderFrame raw ∧ raw ≠ [] ∧
          to_datetime_col raw = None) ->
  let r := get_data filename loader ci sd kw w in
  fst r = Ret (PyDataFrame df) ∧
  files (snd r) = files w ∧ hub (snd r) = hub w ∧
  fetch_log (snd r) = (start, kw') :: fetch_log w.
Proof.
  intros Hdf Hne Hlc Hexp Hbf Hmx Hold Hclk start kw' Hfail r. unfold r.
  rewrite (get_data_expired _ _ _ _ _ _ df lc) by done.
  unfold try_except. rewrite refresh_run. cbv zeta.
  rewrite Hbf, Hmx. cbn [tick ticks clock].
  destruct (Z.ltb_spec mx (midnight (clock w (S (ticks w))) - timedelta_days 1));
    [|lia].
  pose proof (midnight_le (clock w (S (ticks w)))).
  assert (0 < timedelta_days 1) by done.
  destruct (Z.ltb_spec (clock w (S (S (ticks w)))) (mx + timedelta_days 1));
    [lia|].
  fold start kw'.
  destruct Hfail as [-> | [-> | (raw & -> & Hraw & Hparse)]]; [done | done |].
  destruct raw as [|r0 raw]; [done|]. cbn [empty]. by rewrite Hparse.
Qed.

(** ** The dates of a merge *)

Lemma drop_duplicates_last_dates (d : option Z) df :
  d ∈ date <$> drop_duplicates_last df <-> d ∈ date <$> df.
Proof.
  rewrite !list_elem_of_fmap. split.
  - intros (r & -> & Hr). exists r. split; [done|].
    by apply drop_duplicates_last_subset.
  - intros (r & -> & Hr).
    destruct (last_with_date (date r) df) as [r'|] eqn:E.
    + destruct (last_with_date_Some _ _ _ E) as [Hd _].
      exists r'. split; [done|]. apply drop_duplicates_last_spec. by rewrite Hd.
    + apply last_with_date_None in E. destruct E.
      apply list_elem_of_fmap. eauto.
Qed.

(** X10.  The merge of an incremental refresh loses no date and invents
    none: the dates of the merged table are those of the cached table
    together with those of the fetched rows. *)
Theorem merge_frames_dates df dfn (d : option Z) :
  d ∈ date <$> merge_frames df dfn <-> d ∈ date <$> df ∨ d ∈ date <$> dfn.
Proof.
  unfold merge_frames. rewrite sort_values_perm, drop_duplicates_last_dates.
  rewrite fmap_app. apply elem_of_app.
Qed.

(** ** With the loaders of the application *)

(** The invariant of the datasets, for any loader that delivers
    well-formed tables. *)
Lemma get_data_ok filename loader ci sd kw w :
  loader_ok loader -> store_ok filename w ->
  let r := get_data filename loader ci sd kw w in
  value_ok (fst r) ∧ store_ok filename (snd r).
Proof.
  intros Hld Hw r. unfold r. destruct (files w !! filename) as [f|] eqn:E.
  - rewrite (get_data_present _ _ _ _ _ _ f) by done. by apply get_cached_ok.
  - rewrite get_data_absent by done.
    destruct (can_pull filename w).
    + apply get_cached_ok; [done|].
      by apply store_ok_pulled_meta, store_ok_pulled.
    + by apply fetch_and_save_ok.
Qed.

Lemma stock_rows_parse (rows : list (Z * V)) :
  to_datetime_col (map (λ x, mkRawRow (Some (strftime_ymd (fst x))) (snd x)) rows)
  = Some (map (λ x, mkRow (Some (midnight (fst x))) (snd x)) rows).
Proof.
  induction rows as [|[d v] rows IH]; [reflexivity|].
  cbn [map to_datetime_col raw_date raw_vals fst snd]. by rewrite IH.
Qed.

(** X11.  Whatever yfinance does (rows, no rows, an exception),
    [StockPriceLoader] delivers a table, never [None], and its dates
    parse, at day precision.  So the [None] of a Full Fetch cannot arise
    with it: [_fetch_and_save] and the guarded refresh of lines 56 to 108
    return a table. *)
Theorem stock_loader_never_none yf :
  (∀ start kwargs, ∃ raw df,
     stock_fetch_data yf start kwargs = LoaderFrame raw ∧
     to_datetime_col raw = Some df ∧
     Forall (λ r, ∃ t, date r = Some (midnight t)) df) ∧
  (∀ filename sd kw w, ∃ df w',
     _fetch_and_save filename (stock_fetch_data yf) (meta_name filename) sd kw w
     = (Ret (PyDataFrame df), w')) ∧
  (∀ filename sd kw df0 w, ∃ df w',
     try_except (refresh filename (stock_fetch_data yf) sd kw df0)
       (ret (PyDataFrame df0)) w = (Ret (PyDataFrame df), w')).
Proof.
  assert (H : ∀ start kwargs, ∃ raw df,
    stock_fetch_data yf start kwargs = LoaderFrame raw ∧
    to_datetime_col raw = Some df ∧
    Forall (λ r, ∃ t, date r = Some (midnight t)) df).
  { intros start kwargs. unfold stock_fetch_data.
    assert (He : ∃ raw df, @LoaderFrame V [] = LoaderFrame raw ∧
                   to_datetime_col raw = Some df ∧
                   Forall (λ r, ∃ t, date r = Some (midnight t)) df).
    { exists [], []. by repeat split. }
    destruct (kwargs !! "ticker"%string) as [ticker|]; [|exact He].
    destruct ticker as [|a ticker]; [exact He|].
    destruct (yf _ _ _) as [rows|]; [|exact He].
    destruct (empty rows); [exact He|].
    eexists _, _. split; [reflexivity|]. split; [apply stock_rows_parse|].
    apply Forall_forall. intros r Hr. apply list_elem_of_In, in_map_iff in Hr.
    destruct Hr as ([d v] & <- & _). by exists d. }
  assert (Hn : ∀ s k, stock_fetch_data yf s k ≠ LoaderNone).
  { intros s k. destruct (H s k) as (raw & df & -> & _). done. }
  split; [exact H|]. split.
  - intros. by apply fetch_and_save_returns_frame.
  - intros. by apply guarded_refresh_returns_frame.
Qed.

(** X12.  Without a [ticker] parameter [StockPriceLoader] delivers no rows:
    a call for a dataset that is neither cached nor archived returns an
    empty table and stores nothing, so that the next call starts over. *)
Theorem stock_loader_without_ticker yf filename ci sd kw w :
  kw !! "ticker"%string = None ->
  files w !! filename = None -> can_pull filename w = false ->
  let r := get_data filename (stock_fetch_data yf) ci sd kw w in
  fst r = Ret (PyDataFrame []) ∧ files (snd r) = files w ∧ hub (snd r) = hub w.
Proof.
  intros Hk Hf Hp r. unfold r. rewrite get_data_absent by done. rewrite Hp.
  rewrite _fetch_and_save_run. cbv zeta. unfold stock_fetch_data.
  by rewrite Hk.
Qed.

Lemma well_formed_filter (p : @Row V -> bool) df :
  well_formed df -> well_formed (List.filter p df).
Proof.
  intros [Hnd Hasc]. split.
  - clear Hasc. induction df as [|r df IH]; [done|]. simpl.
    rewrite fmap_cons in Hnd. apply NoDup_cons in Hnd as [Hr Hnd].
    destruct (p r); [|by apply IH]. rewrite fmap_cons. apply NoDup_cons.
    split; [|by apply IH]. intros Hin. apply Hr.
    apply list_elem_of_fmap in Hin as (x & -> & Hx).
    apply list_elem_of_fmap. exists x. split; [done|].
    apply list_elem_of_In. apply list_elem_of_In, filter_In in Hx. tauto.
  - clear Hnd. unfold ascending in *.
    induction df as [|r df IH]; [constructor|]. simpl.
    inversion_clear Hasc as [|? ? Hs Hall].
    destruct (p r); [|by apply IH]. constructor; [by apply IH|].
    apply Forall_forall. intros x Hx.
    apply list_elem_of_In, filter_In in Hx as [Hx _].
    rewrite Forall_forall in Hall. by apply Hall, list_elem_of_In.
Qed.

Lemma sorted_deduplicated_well_formed df :
  well_formed (sort_values (drop_duplicates_last df)).
Proof.
  split; [|apply sort_values_ascending].
  rewrite sort_values_perm. apply drop_duplicates_last_NoDup.
Qed.

Lemma oecd_fetch_data_well_formed now (fred estat : Z -> Z -> @DataFrame V)
    sd ed df :
  oecd_fetch_data now fred estat sd ed = Some df ->
  well_formed df ∧ Forall (λ r, is_Some (date r)) df.
Proof.
  unfold oecd_fetch_data.
  destruct (match sd with Some s => s | None => default_start end)
    as [start_dt|]; [|done].
  destruct (match ed with Some e => e | None => strftime_ymd now end)
    as [end_dt|]; [|done].
  cbv zeta.
  assert (Hf : ∀ l : @DataFrame V,
               well_formed (List.filter (in_range start_dt end_dt)
                         (sort_values (drop_duplicates_last l))) ∧
               Forall (λ r, is_Some (date r))
                 (List.filter (in_range start_dt end_dt)
                    (sort_values (drop_duplicates_last l)))).
  { intros l. split.
    - apply well_formed_filter, sorted_deduplicated_well_formed.
    - apply Forall_forall. intros r Hr.
      apply list_elem_of_In, filter_In in Hr as [_ Hr].
      unfold in_range in Hr. by destruct (date r). }
  destruct (negb (empty _) && negb (empty _)); [intros [= <-]; apply Hf|].
  destruct (negb (empty _)); [intros [= <-]; apply Hf|].
  destruct (negb (empty _)); [intros [= <-]; apply Hf|].
  intros [= <-]. split; [apply well_formed_nil | constructor].
Qed.

(** X13.  Every table [OECD_CSV_Loader.fetch_data] delivers has unique
    dates in ascending order and no missing date, whatever FRED and e-Stat
    return. *)
Theorem oecd_loader_well_formed now (fred estat : Z -> Z -> @DataFrame V)
    parse sd kw raw df :
  oecd_loader now fred estat parse sd kw = LoaderFrame raw ->
  to_datetime_col raw = Some df ->
  well_formed df ∧ Forall (λ r, is_Some (date r)) df.
Proof.
  unfold oecd_loader. cbv zeta.
  destruct (oecd_fetch_data _ _ _ _ _) as [df'|] eqn:E; [|done].
  intros [= <-]. rewrite to_datetime_col_to_csv. intros [= <-].
  by apply oecd_fetch_data_well_formed in E.
Qed.

(** X14.  With [OECD_CSV_Loader] as loader, a dataset that is well-formed
    locally and in the archive stays so through [get_data], and the table
    returned has unique, ascending dates. *)
Theorem oecd_dataset_stays_well_formed now (fred estat : Z -> Z -> @DataFrame V)
    parse filename ci sd kw w :
  store_ok filename w ->
  let r := get_data filename (oecd_loader now fred estat parse) ci sd kw w in
  (∀ df, fst r = Ret (PyDataFrame df) -> well_formed df) ∧
  store_ok filename (snd r).
Proof.
  intros Hw r.
  assert (Hld : loader_ok (oecd_loader now fred estat parse)).
  { intros s k raw df H1 H2.
    unfold oecd_loader in H1. cbv zeta in H1.
    destruct (oecd_fetch_data _ _ _ _ _) as [df'|] eqn:E; [|done].
    injection H1 as <-. rewrite to_datetime_col_to_csv in H2.
    injection H2 as <-. apply oecd_fetch_data_well_formed in E as [E1 _].
    exact E1. }
  destruct (get_data_ok filename _ ci sd kw w Hld Hw) as [Hv Hs].
  split; [|exact Hs]. intros df Hr. fold r in Hv. rewrite Hr in Hv. exact Hv.
Qed.

Lemma midnight_split x : split_date <= x -> split_date <= midnight x.
Proof.
  unfold midnight, split_date, timedelta_days, us_per_day. intros H.
  pose proof (Z.div_mod x 86400000000 ltac:(lia)) as Hdm.
  assert (737790 <= x / 86400000000) by (apply Z.div_le_lower_bound; lia).
  nia.
Qed.

(** X15.  The loader asks FRED only for periods that end on 2020-12-31 or
    before, and e-Stat only for periods that start on 2021-01-01 or after:
    what the providers would return for other periods has no influence on
    the result. *)
Theorem oecd_provider_split now (fred fred' estat estat' : Z -> Z -> @DataFrame V)
    sd ed :
  (∀ a b, b <= fred_last_day -> fred a b = fred' a b) ->
  (∀ a b, split_date <= a -> estat a b = estat' a b) ->
  oecd_fetch_data now fred estat sd ed = oecd_fetch_data now fred' estat' sd ed.
Proof.
  intros Hfred Hestat. unfold oecd_fetch_data.
  destruct (match sd with Some s => s | None => default_start end)
    as [start_dt|]; [|done].
  destruct (match ed with Some e => e | None => strftime_ymd now end)
    as [end_dt|]; [|done].
  cbv zeta.
  rewrite (Hfred (midnight start_dt) (midnight (Z.min end_dt fred_last_day))).
  2: { pose proof (midnight_le (Z.min end_dt fred_last_day)). lia. }
  rewrite (Hestat (midnight (Z.max start_dt split_date)) (midnight end_dt)).
  2: { apply midnight_split. lia. }
  reflexivity.
Qed.

End MoreProperties.

(** ** The ticker list *)

Lemma ticker_map_foldl (df : @DataFrame TickerRow) (m : gmap string string) k :
  foldl (λ m r, <[display_name (vals r) := full_ticker (vals r)]> m) m df !! k
  = match last_listed k df with
    | Some t => Some (full_ticker t)
    | None => m !! k
    end.
Proof.
  revert m. induction df as [|r df IH]; intros m; [reflexivity|].
  cbn [foldl last_listed]. rewrite IH.
  destruct (last_listed k df); [reflexivity|].
  destruct (String.eqb_spec (display_name (vals r)) k) as [<- | Hne].
  - apply lookup_insert_eq.
  - by apply lookup_insert_ne.
Qed.

(** X16.  The ticker map holds, under each display name, the yfinance
    ticker of the row listed last under that name (the code with .KQ for a
    Korean KOSDAQ listing, with .KS for any other Korean listing, the bare
    code otherwise), and nothing under names that no row has. *)
Theorem ticker_map_lookup (df : @DataFrame TickerRow) k :
  ticker_map_of df !! k = full_ticker <$> last_listed k df.
Proof.
  unfold ticker_map_of. rewrite ticker_map_foldl.
  by destruct (last_listed k df).
Qed.

(** X17.  Once a ticker list with rows is cached, [get_ticker_map] is built
    from it for good: the list has no date column, so [get_data] never
    calls the loader again, not even after the thirty days of cooldown. *)
Theorem ticker_list_never_refreshed loader (w : @World TickerRow) df :
  fst (_load_csv tickers_file w) = Ret df -> df ≠ [] ->
  date_max df = None ->
  let r := get_ticker_map loader w in
  fst r = Ret (ticker_map_of df) ∧ fetch_log (snd r) = fetch_log w.
Proof.
  intros Hdf Hne Hmax r. apply load_eq in Hdf.
  destruct (cached_frame_present (files w) tickers_file) as [f Hf];
    [congruence|].
  unfold r, get_ticker_map, bind.
  rewrite (get_data_present _ _ _ _ _ _ f) by done.
  destruct (get_cached_undated tickers_file loader (timedelta_days 30) None ∅
              w df Hdf Hne Hmax) as (H1 & H2 & _).
  destruct (get_cached _ _ _ _ _ _) as [o w']. cbn [fst snd] in *. subst o.
  destruct df as [|r0 df]; [done|]. done.
Qed.

(** X18.  [force_update] removes the local ticker list, but with the
    archive within reach the next [get_ticker_map] pulls the archived list
    back and builds the map from it, without calling the loader; only when
    the archive cannot give the list back is the loader called. *)
Theorem force_update_and_archive loader (w : @World TickerRow) :
  let w1 := snd (force_update w) in
  let r := get_ticker_map loader w1 in
  files w1 !! tickers_file = None ∧
  (∀ raw df,
     hub_online w = true -> hub w !! tickers_file = Some (FCsv raw) ->
     to_datetime_col raw = Some df -> df ≠ [] -> date_max df = None ->
     fst r = Ret (ticker_map_of df) ∧ fetch_log (snd r) = fetch_log w) ∧
  (can_pull tickers_file w = false ->
   fetch_log (snd r) = (None, ∅) :: fetch_log w).
Proof.
  intros w1 r.
  assert (Hw1 : files w1 !! tickers_file = None ∧ hub w1 = hub w ∧
                hub_online w1 = hub_online w ∧ fetch_log w1 = fetch_log w).
  { unfold w1, force_update, bind, path_exists.
    destruct (files w !! tickers_file) eqn:E; unfold ret; cbn [fst snd].
    - cbn [files hub hub_online fetch_log set_files].
      by rewrite lookup_delete_eq.
    - done. }
  destruct Hw1 as (Hf1 & Hh1 & Ho1 & Hl1).
  split; [exact Hf1|]. clearbody w1. split.
  - intros raw df Hon Hhub Hparse Hne Hmax.
    unfold r, get_ticker_map, bind. rewrite get_data_absent by done.
    unfold can_pull. rewrite Ho1, Hh1, Hon, Hhub.
    set (w2 := pulled (meta_name tickers_file) (pulled tickers_file w1)).
    assert (Hcf : cached_frame (files w2) tickers_file = df).
    { unfold w2, pulled at 2. rewrite Ho1, Hh1, Hon, Hhub.
      unfold pulled. cbn [hub_online hub set_files]. rewrite Ho1, Hon.
      unfold cached_frame.
      destruct (hub w1 !! meta_name tickers_file); cbn [files set_files];
        rewrite ?lookup_insert_ne by (symmetry; apply meta_name_neq);
        by rewrite lookup_insert_eq, Hparse. }
    assert (Hlog : fetch_log w2 = fetch_log w).
    { unfold w2.
      destruct (pulled_clock (meta_name tickers_file) (pulled tickers_file w1))
        as (_ & _ & -> & _).
      destruct (pulled_clock tickers_file w1) as (_ & _ & -> & _). done. }
    destruct (get_cached_undated tickers_file loader (timedelta_days 30) None ∅
                w2 df Hcf Hne Hmax) as (H1 & H2 & _).
    destruct (get_cached _ _ _ _ _ _) as [o w']. cbn [fst snd] in *. subst o.
    destruct df as [|r0 df]; [done|]. unfold ret. cbn [empty fst snd].
    split; [done|]. congruence.
  - intros Hcp. unfold r, get_ticker_map, bind.
    rewrite get_data_absent by done.
    assert (Hcp1 : can_pull tickers_file w1 = false).
    { unfold can_pull in *. by rewrite Ho1, Hh1. }
    rewrite Hcp1.
    pose proof (fetch_and_save_log tickers_file loader None ∅ w1) as Hlog.
    destruct (_fetch_and_save _ _ _ _ _ _) as [o w']. cbn [snd] in Hlog.
    rewrite Hl1 in Hlog.
    destruct o as [[|rows]|]; [done | | done].
    by destruct (empty rows).
Qed.

Lemma ticker_rows_parse (rows : list TickerRow) :
  to_datetime_col (map (mkRawRow None) rows) = Some (map (mkRow None) rows).
Proof.
  induction rows as [|t rows IH]; [reflexivity|].
  cbn [map to_datetime_col raw_date raw_vals to_datetime_cell]. by rewrite IH.
Qed.

Lemma drop_duplicates_code_NoDup rows :
  NoDup (Code <$> drop_duplicates_code rows).
Proof.
  induction rows as [|t rows IH]; [constructor|].
  cbn [drop_duplicates_code fmap list_fmap]. constructor.
  - rewrite list_elem_of_fmap. intros (x & Hx & Hin).
    apply list_elem_of_filter in Hin as [Hne _]. congruence.
  - induction (drop_duplicates_code rows) as [|x l IHl]; [constructor|].
    rewrite filter_cons. inversion_clear IH as [|? ? Hx Hl].
    case_decide; [|by apply IHl].
    cbn [fmap list_fmap]. constructor; [|by apply IHl].
    rewrite list_elem_of_fmap. intros (y & Hy & Hin).
    apply list_elem_of_filter in Hin as [_ Hin].
    apply Hx, list_elem_of_fmap. by exists y.
Qed.

Lemma ticker_list_fetch_data_rows fdr s k :
  ∃ rows, ticker_list_fetch_data fdr s k = LoaderFrame (map (mkRawRow None) rows)
          ∧ NoDup (Code <$> rows).
Proof.
  unfold ticker_list_fetch_data. destruct (listing_krx fdr) as [krx|].
  - eexists. split; [reflexivity|]. apply drop_duplicates_code_NoDup.
  - exists []. split; [reflexivity|constructor].
Qed.

(** X19.  [TickerListLoader] delivers a table on every path, without a
    date column and with one row for each code; the [None] that
    [get_ticker_map] does not guard against cannot come from it.  On a
    first run, with nothing cached and nothing to pull, the ticker manager
    returns the map of the rows the loader delivered. *)
Theorem ticker_manager_first_run fdr (w : @World TickerRow) :
  files w !! tickers_file = None -> can_pull tickers_file w = false ->
  ∃ rows,
    ticker_list_fetch_data fdr None ∅ = LoaderFrame (map (mkRawRow None) rows) ∧
    NoDup (Code <$> rows) ∧
    fst (ticker_manager_map fdr w) = Ret (ticker_map_of (map (mkRow None) rows)).
Proof.
  intros Hf Hp.
  destruct (ticker_list_fetch_data_rows fdr None ∅) as (rows & Hld & Hnd).
  exists rows. split; [exact Hld|]. split; [exact Hnd|].
  unfold ticker_manager_map, get_ticker_map, bind.
  rewrite get_data_absent by done. rewrite Hp, _fetch_and_save_run.
  cbv zeta. rewrite Hld. destruct rows as [|t rows]; [reflexivity|].
  cbn [empty map]. rewrite <- (map_cons (mkRawRow None)), ticker_rows_parse.
  reflexivity.
Qed.

(** ** Scenarios for the further properties *)

Lemma get_data_frame_witness :
  files (snd (get_data fx loader_news (day 1) None kw w_two)) !! dxy
  = Some (FCsv [raw 80 7]) ∧
  hub (snd (get_data fx loader_news (day 1) None kw w_absent)) = ∅.
Proof.
  split.
  - pose proof (get_data_frame fx loader_news (day 1) None kw w_two) as H.
    cbv zeta in H. destruct H as [H _].
    destruct (H dxy) as [H1 _]; [by_computation .. |].
    rewrite H1. by_computation.
  - pose proof (get_data_frame fx loader_news (day 1) None kw w_absent) as H.
    cbv zeta in H. destruct H as [_ H]. rewrite H; by_computation.
Defined.

Lemma saved_then_lost_is_recovered_witness :
  let w1 := snd (_save_and_push fx cached_table fx (meta_name fx) w_fresh) in
  let r := get_data fx loader_news (day 1) None kw (set_files (λ _, ∅) w1) in
  fst r = Ret (PyDataFrame cached_table) ∧
  fetch_log (snd r) = [] ∧
  fst (_get_last_checked (meta_name fx) (snd r)) = Ret (clock_at_10 0) ∧
  files (snd r) !! fx = Some (FCsv (to_csv cached_table)).
Proof.
  apply (saved_then_lost_is_recovered fx cached_table cached_table w_fresh
           loader_news (day 1) None kw); by_computation.
Defined.

Lemma undated_cache_never_refreshed_witness :
  let r := get_data tickers_file loader_tickers (day 1) None ∅ w_tickers in
  fst r = Ret (PyDataFrame ticker_table) ∧ fetch_log (snd r) = [] ∧
  files (snd r) !! tickers_file = files w_tickers !! tickers_file.
Proof.
  apply (undated_cache_never_refreshed tickers_file loader_tickers (day 1)
           None ∅ w_tickers ticker_table); by_computation.
Defined.

Lemma bad_start_date_blocks_refresh_witness :
  let r := get_data fx loader_news (day 1) (Some DateBad) kw w_stale in
  fst r = Ret (PyDataFrame cached_table) ∧ fetch_log (snd r) = [] ∧
  files (snd r) = files w_stale ∧ hub (snd r) = hub w_stale.
Proof.
  apply (bad_start_date_blocks_refresh fx loader_news (day 1) kw w_stale
           cached_table lc_stale); by_computation.
Defined.

Lemma unreadable_file_is_refetched_witness :
  let r := get_data fx loader_empty (day 1) None kw w_corrupt in
  fst r = Ret (PyDataFrame []) ∧ files (snd r) = files w_corrupt ∧
  hub (snd r) = hub w_corrupt.
Proof.
  pose proof (unreadable_file_is_refetched fx loader_empty (day 1) None kw
                w_corrupt FGarbage) as H.
  cbv zeta in H. destruct H as [_ H]; [by_computation .. |].
  apply H. left. reflexivity.
Defined.

Lemma incremental_failure_keeps_cache_witness :
  let r := get_data fx loader_fails (day 1) None kw w_stale in
  fst r = Ret (PyDataFrame cached_table) ∧
  files (snd r) = files w_stale ∧ hub (snd r) = hub w_stale ∧
  fetch_log (snd r) = [(Some (DateOk (day 93)), kw)].
Proof.
  apply (incremental_failure_keeps_cache fx loader_fails (day 1) None kw
           w_stale cached_table lc_stale (day 92));
    try by_computation.
  left. reflexivity.
Defined.

Lemma stock_loader_without_ticker_witness :
  let r := get_data fx (stock_fetch_data yf_demo) (day 1) None ∅ w_absent in
  fst r = Ret (PyDataFrame []) ∧ files (snd r) = files w_absent ∧
  hub (snd r) = hub w_absent.
Proof.
  apply (stock_loader_without_ticker yf_demo fx (day 1) None ∅ w_absent);
    by_computation.
Defined.

Lemma oecd_loader_well_formed_witness :
  well_formed [row 736000 1; row 737000 3; row 737800 5] ∧
  Forall (λ r : @Row Z, is_Some (date r))
    [row 736000 1; row 737000 3; row 737800 5].
Proof.
  apply (oecd_loader_well_formed oecd_now fred_demo estat_demo (λ _, DateBad)
           None ∅ [raw 736000 1; raw 737000 3; raw 737800 5]);
    by_computation.
Defined.

Lemma oecd_dataset_stays_well_formed_witness :
  let r := get_data fx (oecd_loader oecd_now fred_demo estat_demo (λ _, DateBad))
             (day 1) None ∅ w_stale in
  (∀ df, fst r = Ret (PyDataFrame df) -> well_formed df) ∧
  store_ok fx (snd r).
Proof.
  apply (oecd_dataset_stays_well_formed oecd_now fred_demo estat_demo
           (λ _, DateBad) fx (day 1) None ∅ w_stale).
  split; vm_compute cached_frame; (split;
    [apply (bool_decide_unpack _); vm_compute; exact I | repeat constructor]).
Defined.

Lemma oecd_provider_split_witness :
  oecd_fetch_data oecd_now fred_demo estat_demo None None
  = oecd_fetch_data oecd_now fred_other estat_other None None.
Proof.
  apply (oecd_provider_split oecd_now fred_demo fred_other estat_demo
           estat_other None None).
  - intros a b Hb. unfold fred_other.
    destruct (Z.leb_spec b fred_last_day); [reflexivity | lia].
  - intros a b Ha. unfold estat_other.
    destruct (Z.leb_spec split_date a); [reflexivity | lia].
Defined.

Lemma ticker_list_never_refreshed_witness :
  let r := get_ticker_map loader_tickers w_tickers in
  fst r = Ret (ticker_map_of ticker_table) ∧ fetch_log (snd r) = [].
Proof.
  apply (ticker_list_never_refreshed loader_tickers w_tickers ticker_table);
    by_computation.
Defined.

Lemma force_update_and_archive_witness :
  let r := get_ticker_map loader_tickers (snd (force_update w_tickers)) in
  fst r = Ret (ticker_map_of ticker_table) ∧ fetch_log (snd r) = [].
Proof.
  pose proof (force_update_and_archive loader_tickers w_tickers) as H.
  cbv zeta in H. destruct H as (_ & H & _).
  apply (H ticker_csv ticker_table); by_computation.
Defined.

Lemma ticker_manager_first_run_witness :
  ∃ rows,
    ticker_list_fetch_data fdr_demo None ∅
    = LoaderFrame (map (mkRawRow None) rows) ∧
    NoDup (Code <$> rows) ∧
    fst (ticker_manager_map fdr_demo (mkWorld ∅ ∅ false clock_at_10 0 []))
    = Ret (ticker_map_of (map (mkRow None) rows)).
Proof.
  apply (ticker_manager_first_run fdr_demo
           (mkWorld ∅ ∅ false clock_at_10 0 [])); by_computation.
Defined.
